(** * The image-crawler worker

    A shallow embedding of [worker/message.py] (the batching publisher
    [AsyncProducer], the inbound-message parser and the metadata codec) and of
    [worker/image.py] (the per-task pipeline [process_image] and the
    thumbnailer), followed by the properties established about them.

    Python values are modelled as follows.
    - [str] is a sequence of Unicode code points, [bytes] a sequence of
      octets (a Rocq [string]).
    - A call that may raise returns a [result]; a coroutine that talks to
      collaborators returns the trace of calls it made together with its
      outcome.
    - A [dict] is an insertion-ordered association list, as [json.dumps]
      writes the keys in insertion order. *)

From Stdlib Require Import ZArith NArith List String Ascii Bool Lia.
From Stdlib Require Import DecimalString HexadecimalString.
From Stdlib Require HexadecimalN FinFun.
Import ListNotations.
Local Open Scope Z_scope.

(* ================================================================== *)
(** ** Python prelude *)
(* ================================================================== *)

Module Py.

(** Python [str]: a sequence of code points. *)
Definition str := list N.

(** Python [bytes]. *)
Definition bytes := string.

(** A [str] literal made of ASCII characters. *)
Definition py (s : string) : str := map N_of_ascii (list_ascii_of_string s).

Fixpoint str_eqb (a b : str) : bool :=
  match a, b with
  | [], [] => true
  | x :: a', y :: b' => (x =? y)%N && str_eqb a' b'
  | _, _ => false
  end.

(** The exception classes the two modules mention, and a catch-all for any
    other class.  [WandException] stands for the whole family derived from
    [wand.exceptions.WandException]; an [except C] clause is a match on the
    constructor. *)
Inductive exn : Type :=
| ServerDisconnectedError
| UnidentifiedImageError
| WandException (detail : string)
| BufferError
| TypeError
| JSONDecodeError
| UnicodeDecodeError
| UnicodeEncodeError
| OtherException (name : string).

Inductive result (A : Type) : Type :=
| Return (a : A)
| Raise (e : exn).
Arguments Return {A} a.
Arguments Raise {A} e.

Definition returns {A} (r : result A) : bool :=
  match r with Return _ => true | Raise _ => false end.

(** Python objects that reach the codec.  [PyObject] is any object
    [json.dumps] has no encoder for; floats are left out, nothing below
    depends on them.  The values are finite trees that the interpreter can
    walk: a container that holds itself, nesting deeper than the recursion
    limit and integers longer than the digit limit of [str(int)], on which
    [json.dumps] raises [ValueError] or [RecursionError], are not among
    them. *)
#[warnings="-register-all"]
Inductive pyval : Type :=
| PyNone
| PyBool (b : bool)
| PyInt (n : Z)
| PyStr (s : str)
| PyBytes (b : bytes)
| PyList (items : list pyval)
| PyDict (items : list (str * pyval))
| PyObject (repr : string).

Definition dict := list (str * pyval).

Fixpoint dict_get (d : dict) (k : str) : option pyval :=
  match d with
  | [] => None
  | (k', v) :: d' => if str_eqb k' k then Some v else dict_get d' k
  end.

(** [d[k] = v]: an existing key keeps its position, a new key goes last. *)
Fixpoint dict_set (d : dict) (k : str) (v : pyval) : dict :=
  match d with
  | [] => [(k, v)]
  | (k', v') :: d' =>
      if str_eqb k' k then (k', v) :: d' else (k', v') :: dict_set d' k v
  end.

Definition keys (d : dict) : list str := map fst d.

(** A dict display [{k1: v1, k2: v2, ...}]. *)
Definition dict_of (items : list (str * pyval)) : dict :=
  fold_left (fun d kv => dict_set d (fst kv) (snd kv)) items [].

(** *** [hex] and [repr] of integers *)

Definition hex (k : Z) : str :=
  let digits := py (HexadecimalString.NilZero.string_of_uint
                      (N.to_hex_uint (Z.abs_N k))) in
  if k <? 0 then py "-0x" ++ digits else py "0x" ++ digits.

Definition int_repr (n : Z) : str :=
  py (DecimalString.NilZero.string_of_int (Z.to_int n)).

(** *** UTF-8 *)

Definition octets (b : bytes) : list N :=
  map N_of_ascii (list_ascii_of_string b).

Definition of_octets (l : list N) : bytes :=
  string_of_list_ascii (map ascii_of_N l).

Definition between (lo x hi : N) : bool := ((lo <=? x) && (x <=? hi))%N.

Definition cont (b : N) : bool := between 128 b 191.

Definition low6 (b : N) : N := N.land b 63.

(** Strict decoding of well-formed UTF-8 (no overlong forms, no surrogates,
    nothing above U+10FFFF), as [str(b, 'utf-8')] does. *)
Fixpoint utf8_code_points (l : list N) : option str :=
  match l with
  | [] => Some []
  | b0 :: r =>
      if (b0 <? 128)%N then option_map (cons b0) (utf8_code_points r)
      else
        match r with
        | [] => None
        | b1 :: r1 =>
            if between 194 b0 223 then
              if cont b1
              then option_map
                     (cons (N.lor (N.shiftl (N.land b0 31) 6) (low6 b1)))
                     (utf8_code_points r1)
              else None
            else
              match r1 with
              | [] => None
              | b2 :: r2 =>
                  if between 224 b0 239 then
                    if (if (b0 =? 224)%N then between 160 b1 191
                        else if (b0 =? 237)%N then between 128 b1 159
                             else cont b1) && cont b2
                    then option_map
                           (cons (N.lor (N.shiftl (N.land b0 15) 12)
                                    (N.lor (N.shiftl (low6 b1) 6) (low6 b2))))
                           (utf8_code_points r2)
                    else None
                  else
                    match r2 with
                    | [] => None
                    | b3 :: r3 =>
                        if between 240 b0 244 then
                          if (if (b0 =? 240)%N then between 144 b1 191
                              else if (b0 =? 244)%N then between 128 b1 143
                                   else cont b1) && cont b2 && cont b3
                          then option_map
                                 (cons (N.lor (N.shiftl (N.land b0 7) 18)
                                          (N.lor (N.shiftl (low6 b1) 12)
                                             (N.lor (N.shiftl (low6 b2) 6)
                                                (low6 b3)))))
                                 (utf8_code_points r3)
                          else None
                        else None
                    end
              end
        end
  end.

(** [str(b, 'utf-8')]. *)
Definition decode_utf8 (b : bytes) : result str :=
  match utf8_code_points (octets b) with
  | Some s => Return s
  | None => Raise UnicodeDecodeError
  end.

Definition utf8_octets_of (c : N) : option (list N) :=
  if (c <? 128)%N then Some [c]
  else if (c <? 2048)%N then
    Some [N.lor 192 (N.shiftr c 6); N.lor 128 (low6 c)]
  else if between 55296 c 57343 then None
  else if (c <? 65536)%N then
    Some [N.lor 224 (N.shiftr c 12); N.lor 128 (low6 (N.shiftr c 6));
          N.lor 128 (low6 c)]
  else if (c <? 1114112)%N then
    Some [N.lor 240 (N.shiftr c 18); N.lor 128 (low6 (N.shiftr c 12));
          N.lor 128 (low6 (N.shiftr c 6)); N.lor 128 (low6 c)]
  else None.

Fixpoint utf8_octets (s : str) : option (list N) :=
  match s with
  | [] => Some []
  | c :: s' =>
      match utf8_octets_of c, utf8_octets s' with
      | Some o, Some os => Some (o ++ os)
      | _, _ => None
      end
  end.

(** [bytes(s, 'utf-8')]. *)
Definition encode_utf8 (s : str) : result bytes :=
  match utf8_octets s with
  | Some l => Return (of_octets l)
  | None => Raise UnicodeEncodeError
  end.

(** Text made of ASCII characters only. *)
Definition ascii_only (s : str) : Prop := Forall (fun c => (c < 128)%N) s.

(** *** [json.dumps] with its defaults ([ensure_ascii], separators
    [", "] and [": "]) *)

Definition hex_digit (d : N) : N := if (d <? 10)%N then (48 + d)%N else (87 + d)%N.

(** ['\\u{0:04x}'.format(n)] for [n < 0x10000]. *)
Definition u_escape (n : N) : str :=
  [92; 117; hex_digit (N.land (N.shiftr n 12) 15);
   hex_digit (N.land (N.shiftr n 8) 15);
   hex_digit (N.land (N.shiftr n 4) 15); hex_digit (N.land n 15)]%N.

Definition escape_char (c : N) : str :=
  if (c =? 34)%N then [92; 34]%N
  else if (c =? 92)%N then [92; 92]%N
  else if (c =? 8)%N then [92; 98]%N
  else if (c =? 12)%N then [92; 102]%N
  else if (c =? 10)%N then [92; 110]%N
  else if (c =? 13)%N then [92; 114]%N
  else if (c =? 9)%N then [92; 116]%N
  else if between 32 c 126 then [c]
  else if (c <? 65536)%N then u_escape c
  else
    let n := (c - 65536)%N in
    u_escape (N.lor 55296 (N.land (N.shiftr n 10) 1023))
      ++ u_escape (N.lor 56320 (N.land n 1023)).

Definition encode_basestring_ascii (s : str) : str :=
  [34%N] ++ flat_map escape_char s ++ [34%N].

Fixpoint join (sep : str) (parts : list str) : str :=
  match parts with
  | [] => []
  | [p] => p
  | p :: rest => p ++ sep ++ join sep rest
  end.

(** Apply [f] to each item in turn; the first exception ends the walk. *)
Definition each {A B} (f : A -> result B) : list A -> result (list B) :=
  fix go (l : list A) : result (list B) :=
    match l with
    | [] => Return []
    | x :: l' =>
        match f x with
        | Raise e => Raise e
        | Return y =>
            match go l' with
            | Raise e => Raise e
            | Return ys => Return (y :: ys)
            end
        end
    end.

Fixpoint json_dumps (v : pyval) : result str :=
  match v with
  | PyNone => Return (py "null")
  | PyBool true => Return (py "true")
  | PyBool false => Return (py "false")
  | PyInt n => Return (int_repr n)
  | PyStr s => Return (encode_basestring_ascii s)
  | PyBytes _ => Raise TypeError
  | PyObject _ => Raise TypeError
  | PyList items =>
      match each json_dumps items with
      | Raise e => Raise e
      | Return parts => Return (py "[" ++ join (py ", ") parts ++ py "]")
      end
  | PyDict items =>
      match
        each (fun kv =>
                match json_dumps (snd kv) with
                | Raise e => Raise e
                | Return sx =>
                    Return (encode_basestring_ascii (fst kv) ++ py ": " ++ sx)
                end) items
      with
      | Raise e => Raise e
      | Return parts => Return (py "{" ++ join (py ", ") parts ++ py "}")
      end
  end.

End Py.

(* ================================================================== *)
(** ** The libraries the worker calls: Pillow and Wand *)
(* ================================================================== *)

Module Lib.
Import Py.

(** A decoded [PIL.Image.Image].  As in Pillow, [size] is the pair
    [(width, height)]; [info] lists the keys of [img.info] and [getexif]
    the items of [img.getexif()]. *)
Record Image : Type := {
  size : Z * Z;
  mode : str;
  info : list str;
  getexif : list (Z * pyval)
}.

Definition width (img : Image) : Z := fst (size img).
Definition height (img : Image) : Z := snd (size img).

(** [img.convert(m)]: same raster size, new colour model. *)
Definition convert (m : str) (img : Image) : Image :=
  {| size := size img; mode := m; info := info img; getexif := getexif img |}.

(** What [img.save(output, format=..., quality=...)] leaves in [output]:
    the encoded picture, described by what was encoded and how. *)
Record EncodedImage : Type := {
  format : str;
  quality : Z;
  pixel_size : Z * Z;
  pixel_mode : str
}.

Definition save (img : Image) (fmt : str) (q : Z) : EncodedImage :=
  {| format := fmt; quality := q; pixel_size := size img; pixel_mode := mode img |}.

(** [len(b)] for [bytes]. *)
Definition nbytes (b : bytes) : Z := Z.of_nat (String.length b).

(** The calls [thumbnail_image] makes on a picture.  [Image.open] reads the
    header of the file only; the pixel data are decoded by the first call
    that needs them, so any of these calls may raise ([OSError] on a
    truncated file, for instance). *)
Inductive pillow_call : Type :=
| CallThumbnail (img : Image) (size : Z * Z)
| CallConvert (img : Image) (mode : str)
| CallSave (img : Image) (format : str) (quality : Z).

End Lib.

(* ================================================================== *)
(** ** [worker/message.py] *)
(* ================================================================== *)

Module Message.
Import Py Lib.

(** The [AsyncProducer] object.  [P] is the state of the Kafka client held
    in [self.producer]. *)
Record AsyncProducer (P : Type) : Type := {
  frequency : Z;
  producer : P;
  topic_name : str;
  _messages : list bytes
}.
Arguments frequency {P} _.
Arguments producer {P} _.
Arguments topic_name {P} _.
Arguments _messages {P} _.

(** [AsyncProducer(producer, topic_name, frequency=60)]. *)
Definition new {P} (producer : P) (topic_name : str) (frequency : Z)
  : AsyncProducer P :=
  {| frequency := frequency; producer := producer;
     topic_name := topic_name; _messages := [] |}.

Definition set_messages {P} (self : AsyncProducer P) (q : list bytes)
  : AsyncProducer P :=
  {| frequency := frequency self; producer := producer self;
     topic_name := topic_name self; _messages := q |}.

Definition set_producer {P} (self : AsyncProducer P) (p : P)
  : AsyncProducer P :=
  {| frequency := frequency self; producer := p;
     topic_name := topic_name self; _messages := _messages self |}.

(** [self._messages.append(_msg)]: the list object is updated in place, so
    a loop iterating over it sees the new item. *)
Definition append {P} (self : AsyncProducer P) (_msg : bytes)
  : AsyncProducer P :=
  set_messages self (_messages self ++ [_msg]).

(** [enqueue_message]: a [TypeError] from the encoder is logged and the
    message dropped; any other exception leaves the method. *)
Definition enqueue_message {P} (self : AsyncProducer P) (msg : dict)
  : result (AsyncProducer P) :=
  match
    match json_dumps (PyDict msg) with
    | Return _msg_json => encode_utf8 _msg_json
    | Raise e => Raise e
    end
  with
  | Return _msg => Return (append self _msg)
  | Raise TypeError => Return self
  | Raise e => Raise e
  end.

(** *** [listen] as a coroutine

    A coroutine is a state machine: [control] says where [listen] stands,
    with the locals live at that point.  The two [*Sleep] points are the
    [await asyncio.sleep(...)] calls, the only places where other tasks
    run.  The log lines and the publish rate computed for them change
    nothing and are left out. *)
Inductive control : Type :=
| LoopHead
| ForNext (i : nat)
| WhileAttempts (i : nat) (msg : bytes) (produce_attempts : Z)
| BackoffSleep (i : nat) (msg : bytes) (produce_attempts : Z)
| IntervalSleep
| Raised (e : exn).

(** What [listen] does to the outside world. *)
Inductive call : Type :=
| Produce (topic : str) (msg : bytes) (outcome : result unit)
| Poll (timeout : Z)
| Sleep (seconds : Z).

Record task (P : Type) : Type := {
  self : AsyncProducer P;
  at_ : control;
  calls : list call
}.
Arguments self {P} _.
Arguments at_ {P} _.
Arguments calls {P} _.

Definition goto {P} (s : task P) (c : control) (done : list call) : task P :=
  {| self := self s; at_ := c; calls := calls s ++ done |}.

Section Listen.
Context {P : Type}.

(** The Kafka client: [produce(topic, msg)] either takes the message or
    raises, [poll(timeout)] serves delivery reports. *)
Variable produce : P -> str -> bytes -> result unit * P.
Variable poll : P -> Z -> P.

(** One transfer of control inside [listen].
    - [LoopHead]: [queue_size = len(self._messages)] and the test on it.
    - [ForNext i]: the iterator of [for msg in self._messages] reads item
      [i] of the list object held in [self._messages]; when there is none
      the loop is over, [self._messages = []] runs and the task sleeps for
      [self.frequency].
    - [WhileAttempts]: the test [produce_attempts < 10] and one run of the
      body up to its [await] or its [break].
    - [BackoffSleep]: the task wakes up in the [except] clause and goes on
      to the statement after the [try], which is [break]. *)
Definition listen_step (s : task P) : task P :=
  let me := self s in
  match at_ s with
  | LoopHead =>
      let queue_size := List.length (_messages me) in
      if Nat.eqb queue_size 0
      then goto s IntervalSleep [Sleep (frequency me)]
      else goto s (ForNext 0) []
  | ForNext i =>
      match nth_error (_messages me) i with
      | Some msg => goto s (WhileAttempts i msg 0) []
      | None =>
          {| self := set_messages me [];
             at_ := IntervalSleep;
             calls := calls s ++ [Sleep (frequency me)] |}
      end
  | WhileAttempts i msg produce_attempts =>
      if produce_attempts <? 10 then
        let (outcome, p) := produce (producer me) (topic_name me) msg in
        match outcome with
        | Return _ =>
            {| self := set_producer me p;
               at_ := ForNext (S i);
               calls := calls s ++ [Produce (topic_name me) msg outcome] |}
        | Raise BufferError =>
            {| self := set_producer me (poll p 1);
               at_ := BackoffSleep i msg (produce_attempts + 1);
               calls := calls s ++ [Produce (topic_name me) msg outcome;
                                    Poll 1; Sleep 5] |}
        | Raise e =>
            {| self := set_producer me p;
               at_ := Raised e;
               calls := calls s ++ [Produce (topic_name me) msg outcome] |}
        end
      else goto s (ForNext (S i)) []
  | BackoffSleep i msg produce_attempts => goto s (ForNext (S i)) []
  | IntervalSleep => goto s LoopHead []
  | Raised e => s
  end.

(** Other tasks run only while [listen] is suspended; what they do to the
    publisher is append the messages they enqueue. *)
Definition arrive (batch : list bytes) (s : task P) : task P :=
  {| self := set_messages (self s) (_messages (self s) ++ batch);
     at_ := at_ s; calls := calls s |}.

(** One pass of the [while True] body, up to its interval sleep.
    [arrivals] lists what other tasks enqueue during the successive
    back-off sleeps of the pass (nothing once the list is used up); the
    unused part is returned. *)
Fixpoint listen_pass (fuel : nat) (arrivals : list (list bytes)) (s : task P)
  : option (task P * list (list bytes)) :=
  match fuel with
  | O => None
  | S fuel' =>
      match at_ s with
      | IntervalSleep => Some (s, arrivals)
      | Raised _ => Some (s, arrivals)
      | BackoffSleep _ _ _ =>
          listen_pass fuel' (tl arrivals) (listen_step (arrive (hd [] arrivals) s))
      | _ => listen_pass fuel' arrivals (listen_step s)
      end
  end.

End Listen.

(** The messages handed to [produce], and those it took. *)
Fixpoint attempted (cs : list call) : list bytes :=
  match cs with
  | [] => []
  | Produce _ m _ :: cs' => m :: attempted cs'
  | _ :: cs' => attempted cs'
  end.

Fixpoint delivered (cs : list call) : list bytes :=
  match cs with
  | [] => []
  | Produce _ m (Return _) :: cs' => m :: delivered cs'
  | _ :: cs' => delivered cs'
  end.

(** The number of times [produce] raised [BufferError], which is the number
    of back-off sleeps. *)
Fixpoint backoffs (cs : list call) : nat :=
  match cs with
  | [] => 0
  | Produce _ _ (Raise BufferError) :: cs' => S (backoffs cs')
  | _ :: cs' => backoffs cs'
  end.

(** The number of calls to [poll], and the seconds spent in
    [asyncio.sleep]. *)
Fixpoint polls (cs : list call) : nat :=
  match cs with
  | [] => 0
  | Poll _ :: cs' => S (polls cs')
  | _ :: cs' => polls cs'
  end.

Fixpoint slept (cs : list call) : Z :=
  match cs with
  | [] => 0
  | Sleep seconds :: cs' => seconds + slept cs'
  | _ :: cs' => slept cs'
  end.

(** A task about to enter [listen]. *)
Definition start {P} (me : AsyncProducer P) : task P :=
  {| self := me; at_ := LoopHead; calls := [] |}.

(** [b] is what [enqueue_message] queues for the dict [d]: the UTF-8 bytes
    of its JSON text. *)
Definition wire_format (d : dict) (b : bytes) : Prop :=
  exists text,
    json_dumps (PyDict d) = Return text
    /\ encode_utf8 text = Return b
    /\ decode_utf8 b = Return text.

(** What a call [enqueue_message(msg)] adds to the queue: the bytes of the
    JSON text when [json.dumps] can write [msg], nothing otherwise. *)
Definition queued (msg : dict) : list bytes :=
  match json_dumps (PyDict msg) with
  | Return text => [of_octets text]
  | Raise _ => []
  end.

(** Calls to [enqueue_message], one after another, as the tasks of the
    worker make them. *)
Fixpoint enqueue_each {P} (self : AsyncProducer P) (msgs : list dict)
  : result (AsyncProducer P) :=
  match msgs with
  | [] => Return self
  | msg :: msgs' =>
      match enqueue_message self msg with
      | Return self' => enqueue_each self' msgs'
      | Raise e => Raise e
      end
  end.

(** *** [parse_message] *)

(** An inbound Kafka message; [value] is what [msg.value()] returns. *)
Record KafkaMessage : Type := { value : bytes }.

Section Parse.

(** [json.loads] on a [str]: the decoded value, or an exception
    ([json.JSONDecodeError] when the text is not JSON). *)
Variable json_loads : str -> result pyval.

Definition parse_message (msg : KafkaMessage) : result pyval :=
  match
    match decode_utf8 (value msg) with
    | Return text => json_loads text
    | Raise e => Raise e
    end
  with
  | Return decoded => Return decoded
  | Raise JSONDecodeError => Return PyNone
  | Raise e => Raise e
  end.

End Parse.

(** *** The metadata codec *)

Section Codec.
Context {P : Type}.

(** [wand.image.Image(file=buffer).compression_quality]. *)
Variable wand_compression_quality : bytes -> result Z.

Definition notify_quality (img : Image) (buffer : bytes) (identifier : str)
    (metadata_producer : AsyncProducer P) : result (AsyncProducer P) :=
  let '(height, width) := size img in
  let filesize := nbytes buffer in
  match
    match wand_compression_quality buffer with
    | Return q => Return (PyInt q)
    | Raise (WandException _) => Return PyNone
    | Raise e => Raise e
    end
  with
  | Raise e => Raise e
  | Return compression_quality =>
      enqueue_message metadata_producer
        (dict_of [(py "height", PyInt height);
                  (py "width", PyInt width);
                  (py "identifier", PyStr identifier);
                  (py "filesize", PyInt filesize);
                  (py "compression_quality", compression_quality)])
  end.

Definition notify_exif (img : Image) (identifier : str)
    (metadata_producer : AsyncProducer P) : result (AsyncProducer P) :=
  if existsb (str_eqb (py "exif")) (info img) then
    let exif := dict_of (map (fun kv => (hex (fst kv), snd kv)) (getexif img)) in
    match exif with
    | [] => Return metadata_producer
    | _ :: _ =>
        enqueue_message metadata_producer
          (dict_of [(py "identifier", PyStr identifier);
                    (py "exif", PyDict exif)])
    end
  else Return metadata_producer.

Definition notify_retry (identifier source url : str) (attempts : Z)
    (retry_producer : AsyncProducer P) : result (AsyncProducer P) :=
  enqueue_message retry_producer
    (dict_of [(py "url", PyStr url);
              (py "uuid", PyStr identifier);
              (py "source", PyStr source);
              (py "attempts", PyInt attempts)]).

(** [utcnow_isoformat] is what [dt.datetime.utcnow().isoformat()] returns
    when the call is made. *)
Definition notify_404 (utcnow_isoformat : str) (identifier : str)
    (link_rot_producer : AsyncProducer P) : result (AsyncProducer P) :=
  enqueue_message link_rot_producer
    (dict_of [(py "identifier", PyStr identifier);
              (py "timestamp", PyStr utcnow_isoformat)]).

End Codec.

End Message.

(* ================================================================== *)
(** ** [worker/image.py] *)
(* ================================================================== *)

Module ImagePy.
Import Py Lib.

(** The response of the rate-limited session: [status], and what
    [await img_resp.read()] does, yield the body or raise. *)
Record Response : Type := { status : Z; read : result bytes }.

(** The object passed as [stats].  [process_image] awaits its two methods;
    their class, [worker.stats_reporting.StatsManager], is not among the
    sources, so each method is given by what it does when called: return or
    raise. *)
Record StatsManager : Type := {
  record_error : str -> pyval -> result unit;
  record_success : str -> result unit
}.

(** The object passed as [metadata_producer].  [process_image] only calls
    its two methods; their class is not among the sources, so each method
    is given by what it does when called: return or raise. *)
Record MetadataProducer : Type := {
  notify_image_quality_update :
    Z -> Z -> str -> Z -> option Z -> result unit;
  notify_exif_update : str -> dict -> result unit
}.

(** The calls a task makes on its collaborators and on the worker pool, in
    the order made: the semaphore, [session.get], [Image.open], the Wand
    probe, [thumbnail_image], the stats manager, the metadata producer and
    the persister.  A call is recorded when it is made, whether it returns
    or raises.  Reading the body of the response leaves no event: its
    outcome shows in how the task goes on.  The arguments of
    [QualityUpdate] are the positional
    arguments of [notify_image_quality_update(height, width, identifier,
    filesize, compression_quality)]. *)
Inductive event : Type :=
| Acquire
| Release
| Get (url source : str)
| Open (buffer : bytes)
| Probe (buffer : bytes)
| Thumbnail (img : Image)
| RecordError (source : str) (code : pyval)
| RecordSuccess (source : str)
| QualityUpdate (height width : Z) (identifier : str) (filesize : Z)
    (compression_quality : option Z)
| ExifUpdate (identifier : str) (exif : dict)
| Persist (img : EncodedImage) (identifier : str).

(** A computation: the calls made so far and how it ended. *)
Definition M (A : Type) : Type := list event * result A.

Definition ret {A} (a : A) : M A := ([], Return a).

Definition bind {A B} (m : M A) (k : A -> M B) : M B :=
  match m with
  | (t, Return a) => let (t', r) := k a in (t ++ t', r)
  | (t, Raise e) => (t, Raise e)
  end.

(** A call on a collaborator whose outcome is [r], recorded as [ev]. *)
Definition call {A} (ev : list event) (r : result A) : M A := (ev, r).

(** [try: body / except <the classes handler accepts>: ...]. *)
Definition try_except {A} (body : M A) (handler : exn -> option (M A)) : M A :=
  match body with
  | (t, Raise e) =>
      match handler e with
      | Some h => let (t', r) := h in (t ++ t', r)
      | None => (t, Raise e)
      end
  | _ => body
  end.

(** [async with semaphore: body]: the permit is given back however the
    body ends. *)
Definition async_with {A} (body : M A) : M A :=
  let (t, r) := body in (Acquire :: t ++ [Release], r).

Notation "x <- m ;; k" := (bind m (fun x => k))
  (at level 61, m at next level, right associativity).
Notation "m ;;; k" := (bind m (fun _ => k))
  (at level 61, right associativity).

Section Pipeline.

(** [settings.TARGET_RESOLUTION], a [(width, height)] pair. *)
Variable TARGET_RESOLUTION : Z * Z.

(** [PIL.Image.open] on the fetched bytes. *)
Variable Image_open : bytes -> result Image.

(** The size [Image.thumbnail(size)] gives an image of a given size. *)
Variable thumbnail_size : Z * Z -> Z * Z -> Z * Z.

(** The exception a call on a picture ends with, if any. *)
Variable pillow_raises : pillow_call -> option exn.

(** [wand.image.Image(file=buffer).compression_quality]. *)
Variable wand_compression_quality : bytes -> result Z.

(** A call on a picture: it raises what [pillow_raises] says, or has its
    effect. *)
Definition pillow {A} (c : pillow_call) (effect : A) : result A :=
  match pillow_raises c with
  | Some e => Raise e
  | None => Return effect
  end.

(** [img.thumbnail(size=..., resample=Image.NEAREST)]. *)
Definition thumbnail (img : Image) (sz : Z * Z) : result Image :=
  pillow (CallThumbnail img sz)
    {| size := thumbnail_size sz (size img); mode := mode img;
       info := info img; getexif := getexif img |}.

Definition thumbnail_image (img : Image) : result EncodedImage :=
  match thumbnail img TARGET_RESOLUTION with
  | Raise e => Raise e
  | Return img =>
      match
        if negb (str_eqb (mode img) (py "RGB"))
        then pillow (CallConvert img (py "RGB")) (convert (py "RGB") img)
        else Return img
      with
      | Raise e => Raise e
      | Return img =>
          pillow (CallSave img (py "JPEG") 30) (save img (py "JPEG") 30)
      end
  end.

Definition notify_quality (img : Image) (buffer : bytes) (identifier : str)
    (metadata_producer : MetadataProducer) : M unit :=
  let '(height, width) := size img in
  let filesize := nbytes buffer in
  compression_quality <-
    try_except
      (q <- call [Probe buffer] (wand_compression_quality buffer) ;; ret (Some q))
      (fun e => match e with
                | WandException _ => Some (ret None)
                | _ => None
                end) ;;
  call [QualityUpdate height width identifier filesize compression_quality]
    (notify_image_quality_update metadata_producer
       height width identifier filesize compression_quality).

Definition notify_exif (img : Image) (identifier : str)
    (metadata_producer : MetadataProducer) : M unit :=
  if existsb (str_eqb (py "exif")) (info img) then
    let exif := dict_of (map (fun kv => (hex (fst kv), snd kv)) (getexif img)) in
    match exif with
    | [] => ret tt
    | _ :: _ =>
        call [ExifUpdate identifier exif]
          (notify_exif_update metadata_producer identifier exif)
    end
  else ret tt.

(** [process_image].  [persister] and [session] are given by what the
    callback and [session.get] do; the [semaphore] shows as the events
    [Acquire] and [Release].  Every call on a collaborator may raise, and an
    exception met outside the two [try] blocks leaves the coroutine.  An
    inner computation yields [None] where the source executes [return]. *)
Definition process_image
    (persister : EncodedImage -> str -> result unit)
    (session : str -> str -> result (option Response))
    (url identifier : str) (stats : StatsManager) (source : str)
    (metadata_producer : option MetadataProducer) : M unit :=
  async_with (
    fetched <-
      try_except
        (img_resp <- call [Get url source] (session url source) ;;
         ret (Some img_resp))
        (fun e => match e with
                  | ServerDisconnectedError =>
                      Some (call [RecordError source
                                    (PyStr (py "ServerDisconnected"))]
                              (record_error stats source
                                 (PyStr (py "ServerDisconnected")))
                              ;;; ret None)
                  | _ => None
                  end) ;;
    match fetched with
    | None => ret tt
    | Some None =>
        call [RecordError source (PyStr (py "NoRateToken"))]
          (record_error stats source (PyStr (py "NoRateToken")))
    | Some (Some img_resp) =>
        if status img_resp >=? 400
        then call [RecordError source (PyInt (status img_resp))]
               (record_error stats source (PyInt (status img_resp)))
        else
          buffer <- call [] (read img_resp) ;;
          decoded <-
            try_except
              (img <- call [Open buffer] (Image_open buffer) ;;
               match metadata_producer with
               | Some mp =>
                   notify_quality img buffer identifier mp ;;;
                   notify_exif img identifier mp
               | None => ret tt
               end ;;;
               ret (Some img))
              (fun e => match e with
                        | UnidentifiedImageError =>
                            Some (call [RecordError source
                                          (PyStr (py "UnidentifiedImageError"))]
                                    (record_error stats source
                                       (PyStr (py "UnidentifiedImageError")))
                                    ;;; ret None)
                        | _ => None
                        end) ;;
          match decoded with
          | None => ret tt
          | Some img =>
              thumb <- call [Thumbnail img] (thumbnail_image img) ;;
              call [Persist thumb identifier] (persister thumb identifier) ;;;
              call [RecordSuccess source] (record_success stats source)
          end
    end).

End Pipeline.

(** The metadata events in a trace. *)
Definition is_metadata (ev : event) : bool :=
  match ev with
  | QualityUpdate _ _ _ _ _ => true
  | ExifUpdate _ _ => true
  | _ => false
  end.

Definition errors_recorded (t : list event) : list pyval :=
  flat_map (fun ev => match ev with RecordError _ c => [c] | _ => [] end) t.

(** The outcomes recorded through the stats manager. *)
Definition is_stat (ev : event) : bool :=
  match ev with
  | RecordError _ _ => true
  | RecordSuccess _ => true
  | _ => false
  end.

Definition is_work (ev : event) : bool :=
  match ev with
  | Thumbnail _ => true
  | Persist _ _ => true
  | _ => false
  end.

(** The semaphore's events. *)
Definition is_permit (ev : event) : bool :=
  match ev with
  | Acquire => true
  | Release => true
  | _ => false
  end.

(** The boto3 client handed to [save_thumbnail_s3]: what
    [put_object(Bucket=..., Key=..., Body=...)] does, return or raise. *)
Record S3Client : Type := {
  put_object : str -> str -> EncodedImage -> result unit
}.

(** [save_thumbnail_s3]; the key is [f'{identifier}.jpg']. *)
Definition save_thumbnail_s3 (s3_client : S3Client) (img : EncodedImage)
    (identifier : str) : result unit :=
  put_object s3_client (py "cc-image-analysis") (identifier ++ py ".jpg") img.

End ImagePy.

(* ================================================================== *)
(** ** [test/test_worker.py] *)
(* ================================================================== *)

Module TestWorker.
Import Py Lib.

(** [validate_thumbnail], the persister of the tests: it opens the
    thumbnail it is given and asserts that it is at most 640 by 480.  A
    failed [assert] raises [AssertionError]. *)
Definition validate_thumbnail (img : EncodedImage) (identifier : str)
  : result unit :=
  let '(width, height) := pixel_size img in
  if (width <=? 640) && (height <=? 480)
  then Return tt
  else Raise (OtherException "AssertionError").

End TestWorker.

(* ================================================================== *)
(** ** Test doubles *)
(* ================================================================== *)

Module Doubles.
Import Py Lib.

(** A test double for the Kafka client: the script says, call after call,
    whether [produce] raises [BufferError]; past its end every message is
    taken. *)
Definition scripted_produce (p : list bool) (topic : str) (msg : bytes)
  : result unit * list bool :=
  match p with
  | true :: p' => (Raise BufferError, p')
  | false :: p' => (Return tt, p')
  | [] => (Return tt, [])
  end.

Definition scripted_poll (p : list bool) (timeout : Z) : list bool := p.

(** A client out of order: [produce] always raises a Kafka error. *)
Definition broken_produce (p : unit) (topic : str) (msg : bytes)
  : result unit * unit :=
  (Raise (OtherException "KafkaException"), p).

Definition idle_poll (p : unit) (timeout : Z) : unit := p.

(** A client that takes every message and keeps what it was given, in
    order. *)
Definition fake_produce (p : list bytes) (topic : str) (msg : bytes)
  : result unit * list bytes :=
  (Return tt, p ++ [msg]).

Definition fake_poll (p : list bytes) (timeout : Z) : list bytes := p.

(** A sink whose two methods return. *)
Definition quiet_sink : ImagePy.MetadataProducer :=
  {| ImagePy.notify_image_quality_update := fun _ _ _ _ _ => Return tt;
     ImagePy.notify_exif_update := fun _ _ => Return tt |}.

(** A stats manager whose two methods return. *)
Definition quiet_stats : ImagePy.StatsManager :=
  {| ImagePy.record_error := fun _ _ => Return tt;
     ImagePy.record_success := fun _ => Return tt |}.

(** A session that answers every request with the given status and body. *)
Definition fake_session (st : Z) (body : bytes)
  : str -> str -> result (option ImagePy.Response) :=
  fun _ _ =>
    Return (Some {| ImagePy.status := st; ImagePy.read := Return body |}).

(** Pictures whose pixel data are sound: no call on them raises. *)
Definition sound : pillow_call -> option exn := fun _ => None.

(** Pictures cut short: the header reads, the first call that needs the
    pixel data raises [OSError]. *)
Definition truncated : pillow_call -> option exn :=
  fun c =>
    match c with
    | CallThumbnail _ _ => Some (OtherException "OSError")
    | _ => None
    end.

(** A landscape picture, 640 pixels wide and 480 high, with one EXIF tag
    (0x13b, Artist). *)
Definition landscape : Image :=
  {| size := (640, 480); mode := py "RGB"; info := [py "exif"];
     getexif := [(315, PyStr (py "unknown"))] |}.

(** A large RGBA picture without EXIF data. *)
Definition poster : Image :=
  {| size := (4000, 1000); mode := py "RGBA"; info := []; getexif := [] |}.

(** An aspect-preserving size rule of the kind [Image.thumbnail] applies:
    shrink to the requested width if wider, then to the requested height if
    still taller, never below one pixel. *)
Definition shrink_to_fit (req cur : Z * Z) : Z * Z :=
  let (x, y) := cur in
  let (x1, y1) :=
    if x >? fst req then (fst req, Z.max (y * fst req / x) 1) else (x, y) in
  if y1 >? snd req then (Z.max (x1 * snd req / y1) 1, snd req) else (x1, y1).

Fixpoint digits_value (acc : Z) (s : str) : option Z :=
  match s with
  | [] => Some acc
  | c :: s' =>
      if between 48 c 57
      then digits_value (10 * acc + (Z.of_N c - 48)) s'
      else None
  end.

(** A JSON decoder for bare scalars ([null], [true], [false], unsigned
    integers); any other text is reported as not being JSON. *)
Definition loads_scalar (text : str) : result pyval :=
  if str_eqb text (py "null") then Return PyNone
  else if str_eqb text (py "true") then Return (PyBool true)
  else if str_eqb text (py "false") then Return (PyBool false)
  else match text with
       | [] => Raise JSONDecodeError
       | _ :: _ =>
           match digits_value 0 text with
           | Some n => Return (PyInt n)
           | None => Raise JSONDecodeError
           end
       end.

End Doubles.

(* ================================================================== *)
(** ** Facts about the prelude *)
(* ================================================================== *)

Lemma str_eqb_eq (a b : Py.str) : Py.str_eqb a b = true <-> a = b.
Proof.
  revert b. induction a as [|x a IH]; intros [|y b]; cbn;
    try (split; [discriminate | congruence]); [tauto|].
  rewrite andb_true_iff, N.eqb_eq, IH.
  split; [intros [-> ->]; reflexivity | intros H; injection H; auto].
Qed.

(* ================================================================== *)
(** ** The wire format: [json.dumps] writes ASCII, which is UTF-8 *)
(* ================================================================== *)

Section Wire.
Import Py.

Lemma ascii_only_app (a b : str) :
  ascii_only a -> ascii_only b -> ascii_only (a ++ b).
Proof. intros Ha Hb. apply Forall_app. split; assumption. Qed.

Lemma hex_digit_ascii (n : N) : (hex_digit (N.land n 15) < 128)%N.
Proof.
  assert (H : (N.land n 15 < 16)%N).
  { change 15%N with (N.ones 4). rewrite N.land_ones.
    apply N.mod_lt. discriminate. }
  unfold hex_digit. destruct (N.ltb_spec (N.land n 15) 10); lia.
Qed.

Lemma u_escape_ascii (n : N) : ascii_only (u_escape n).
Proof.
  unfold u_escape, ascii_only.
  repeat (constructor; [first [apply hex_digit_ascii | reflexivity]|]).
  constructor.
Qed.

Lemma escape_char_ascii (c : N) : ascii_only (escape_char c).
Proof.
  unfold escape_char.
  repeat match goal with
         | |- ascii_only (if (?a =? ?b)%N then _ else _) =>
             destruct (a =? b)%N;
             [repeat constructor|]
         end.
  unfold between.
  destruct (N.leb_spec 32 c); destruct (N.leb_spec c 126); cbn [andb];
    try (destruct (c <? 65536)%N;
         [apply u_escape_ascii
         | apply ascii_only_app; apply u_escape_ascii]).
  constructor; [lia | constructor].
Qed.

Lemma escaped_ascii (s : str) : ascii_only (flat_map escape_char s).
Proof.
  induction s as [|c s IH]; cbn; [constructor|].
  apply ascii_only_app; [apply escape_char_ascii | exact IH].
Qed.

Lemma encode_basestring_ascii_ascii (s : str) :
  ascii_only (encode_basestring_ascii s).
Proof.
  unfold encode_basestring_ascii.
  apply ascii_only_app; [repeat constructor|].
  apply ascii_only_app; [apply escaped_ascii | repeat constructor].
Qed.

Ltac ascii_parts :=
  repeat first
    [ apply Forall_nil
    | apply Forall_cons; [reflexivity|]
    | apply escaped_ascii
    | apply ascii_only_app
    | assumption ].

Lemma decimal_digits_ascii (d : Decimal.uint) :
  ascii_only (py (DecimalString.NilEmpty.string_of_uint d)).
Proof.
  induction d; cbn; constructor; try reflexivity; assumption.
Qed.

Lemma decimal_ascii (d : Decimal.uint) :
  ascii_only (py (DecimalString.NilZero.string_of_uint d)).
Proof.
  unfold DecimalString.NilZero.string_of_uint.
  destruct d; try apply decimal_digits_ascii. repeat constructor.
Qed.

Lemma int_repr_ascii (n : Z) : ascii_only (int_repr n).
Proof.
  unfold int_repr, DecimalString.NilZero.string_of_int.
  destruct (Z.to_int n) as [d|d]; [apply decimal_ascii|].
  cbn. constructor; [reflexivity | apply decimal_ascii].
Qed.

(** Induction on values, through lists and dicts. *)
Section ValueInduction.
Variable Q : pyval -> Prop.
Hypothesis HNone : Q PyNone.
Hypothesis HBool : forall b, Q (PyBool b).
Hypothesis HInt : forall n, Q (PyInt n).
Hypothesis HStr : forall s, Q (PyStr s).
Hypothesis HBytes : forall b, Q (PyBytes b).
Hypothesis HObject : forall r, Q (PyObject r).
Hypothesis HList : forall items, Forall Q items -> Q (PyList items).
Hypothesis HDict :
  forall items, Forall (fun kv => Q (snd kv)) items -> Q (PyDict items).

Fixpoint pyval_nested_ind (v : pyval) : Q v :=
  match v with
  | PyNone => HNone
  | PyBool b => HBool b
  | PyInt n => HInt n
  | PyStr s => HStr s
  | PyBytes b => HBytes b
  | PyObject r => HObject r
  | PyList items =>
      HList items
        ((fix all (l : list pyval) : Forall Q l :=
            match l with
            | [] => Forall_nil _
            | x :: l' => Forall_cons x (pyval_nested_ind x) (all l')
            end) items)
  | PyDict items =>
      HDict items
        ((fix all (l : list (str * pyval))
            : Forall (fun kv => Q (snd kv)) l :=
            match l with
            | [] => Forall_nil _
            | kv :: l' =>
                Forall_cons kv (pyval_nested_ind (snd kv)) (all l')
            end) items)
  end.

End ValueInduction.

Lemma each_all {A B} (f : A -> result B) (Q : B -> Prop) (l : list A) :
  Forall (fun x => forall y, f x = Return y -> Q y) l ->
  forall ys, each f l = Return ys -> Forall Q ys.
Proof.
  induction 1 as [|x l Hx _ IH]; cbn; intros ys Hys.
  - injection Hys as <-. constructor.
  - destruct (f x) as [y|e] eqn:Ey; [|discriminate].
    destruct (each f l) as [ys'|e]; [|discriminate].
    injection Hys as <-. constructor; [apply Hx; reflexivity | apply IH; reflexivity].
Qed.

Lemma each_raises {A B} (f : A -> result B) (R : exn -> Prop) (l : list A) :
  Forall (fun x => forall e, f x = Raise e -> R e) l ->
  forall e, each f l = Raise e -> R e.
Proof.
  induction 1 as [|x l Hx _ IH]; cbn; intros e He; [discriminate|].
  destruct (f x) as [y|e'] eqn:Ey.
  - destruct (each f l) as [ys'|e'']; [discriminate|].
    injection He as <-. apply IH. reflexivity.
  - injection He as <-. apply Hx. reflexivity.
Qed.

Lemma join_ascii (sep : str) (parts : list str) :
  ascii_only sep -> Forall ascii_only parts -> ascii_only (join sep parts).
Proof.
  intros Hsep. induction 1 as [|p parts Hp Hparts IH]; cbn; [constructor|].
  destruct parts as [|p' parts']; [exact Hp|].
  apply ascii_only_app; [exact Hp|]. apply ascii_only_app; assumption.
Qed.

(** [json.dumps] writes ASCII only. *)
Lemma json_dumps_ascii (v : pyval) :
  forall text, json_dumps v = Return text -> ascii_only text.
Proof.
  induction v as [| [|] | n | s | b | r | items IH | items IH]
    using pyval_nested_ind; cbn; intros text Htext;
    try discriminate; try (injection Htext as <-).
  - repeat constructor.
  - repeat constructor.
  - repeat constructor.
  - apply int_repr_ascii.
  - apply encode_basestring_ascii_ascii.
  - destruct (each json_dumps items) as [parts|e] eqn:Eparts; [|discriminate].
    injection Htext as <-.
    constructor; [reflexivity|].
    apply ascii_only_app; [|repeat constructor].
    apply join_ascii; [repeat constructor|].
    apply (each_all json_dumps ascii_only items); [|exact Eparts].
    exact IH.
  - match type of Htext with
    | match each ?f items with _ => _ end = _ =>
        destruct (each f items) as [parts|e] eqn:Eparts; [|discriminate];
        pose proof (each_all f ascii_only items) as Hall
    end.
    injection Htext as <-.
    constructor; [reflexivity|].
    apply ascii_only_app; [|repeat constructor].
    apply join_ascii; [repeat constructor|].
    apply Hall; [|exact Eparts].
    eapply Forall_impl; [|exact IH].
    intros [k x] Hx y. cbn [fst snd] in *.
    destruct (json_dumps x) as [sx|e]; [|discriminate].
    intros Hy. injection Hy as <-.
    ascii_parts. apply Hx. reflexivity.
Qed.

(** The only exception [json.dumps] raises on these values is
    [TypeError]. *)
Lemma json_dumps_raises_type_error (v : pyval) :
  forall e, json_dumps v = Raise e -> e = TypeError.
Proof.
  induction v as [| [|] | n | s | b | r | items IH | items IH]
    using pyval_nested_ind; cbn; intros e He;
    try discriminate; try (injection He as <-; reflexivity).
  - destruct (each json_dumps items) as [parts|e'] eqn:Eparts; [discriminate|].
    injection He as <-.
    apply (each_raises json_dumps (fun e => e = TypeError) items IH _ Eparts).
  - match type of He with
    | match each ?f items with _ => _ end = _ =>
        destruct (each f items) as [parts|e'] eqn:Eparts; [discriminate|];
        pose proof (each_raises f (fun e => e = TypeError) items) as Hall
    end.
    injection He as <-. apply Hall; [|exact Eparts].
    eapply Forall_impl; [|exact IH].
    intros [k x] Hx e. cbn [fst snd] in *.
    destruct (json_dumps x) as [sx|e'']; [discriminate|].
    intros He. injection He as <-. apply Hx. reflexivity.
Qed.

Lemma utf8_octets_ascii (s : str) : ascii_only s -> utf8_octets s = Some s.
Proof.
  induction 1 as [|c s Hc _ IH]; cbn; [reflexivity|].
  unfold utf8_octets_of. apply N.ltb_lt in Hc. rewrite Hc, IH. reflexivity.
Qed.

Lemma utf8_code_points_ascii (s : str) :
  ascii_only s -> utf8_code_points s = Some s.
Proof.
  induction 1 as [|c s Hc _ IH]; cbn; [reflexivity|].
  apply N.ltb_lt in Hc. rewrite Hc, IH. reflexivity.
Qed.

Lemma octets_of_octets (l : list N) :
  Forall (fun c => (c < 256)%N) l -> octets (of_octets l) = l.
Proof.
  intros Hl. unfold octets, of_octets.
  rewrite list_ascii_of_string_of_list_ascii, map_map.
  induction Hl as [|c l Hc _ IH]; cbn; [reflexivity|].
  rewrite N_ascii_embedding by exact Hc. rewrite IH. reflexivity.
Qed.

(** ASCII text survives [bytes(text, 'utf-8')] and reads back as itself. *)
Lemma ascii_text_round_trip (text : str) :
  ascii_only text ->
  encode_utf8 text = Return (of_octets text)
  /\ decode_utf8 (of_octets text) = Return text.
Proof.
  intros Hascii. unfold encode_utf8, decode_utf8.
  rewrite utf8_octets_ascii by exact Hascii.
  rewrite octets_of_octets.
  - rewrite utf8_code_points_ascii by exact Hascii. split; reflexivity.
  - eapply Forall_impl; [|exact Hascii]. cbn. intros c Hc. lia.
Qed.

(** A message [json.dumps] can write is queued as the UTF-8 bytes of its
    JSON text. *)
Lemma enqueue_message_queues {P} (self : Message.AsyncProducer P)
    (msg : dict) (text : str) :
  json_dumps (PyDict msg) = Return text ->
  Message.enqueue_message self msg
  = Return (Message.append self (of_octets text))
  /\ Message.wire_format msg (of_octets text).
Proof.
  intros Htext.
  destruct (ascii_text_round_trip text (json_dumps_ascii _ _ Htext))
    as [Henc Hdec].
  unfold Message.enqueue_message, Message.wire_format.
  rewrite Htext, Henc. split; [reflexivity|].
  exists text. repeat split; assumption.
Qed.

(** A message [json.dumps] cannot write is dropped: the exception is a
    [TypeError], which [enqueue_message] absorbs. *)
Lemma enqueue_message_drops {P} (self : Message.AsyncProducer P)
    (msg : dict) (e : exn) :
  json_dumps (PyDict msg) = Raise e ->
  Message.enqueue_message self msg = Return self.
Proof.
  intros He. unfold Message.enqueue_message.
  rewrite He, (json_dumps_raises_type_error _ _ He). reflexivity.
Qed.

End Wire.

(* ================================================================== *)
(** ** Properties of the image pipeline ([worker/image.py]) *)
(* ================================================================== *)

Section PipelineFacts.
Import Py Lib ImagePy.

Variable TARGET_RESOLUTION : Z * Z.
Variable Image_open : bytes -> result Image.
Variable thumbnail_size : Z * Z -> Z * Z -> Z * Z.
Variable pillow_raises : pillow_call -> option exn.
Variable wand_compression_quality : bytes -> result Z.

Local Abbreviation pipeline :=
  (process_image TARGET_RESOLUTION Image_open thumbnail_size pillow_raises
     wand_compression_quality).

Local Abbreviation thumbnail_of :=
  (thumbnail_image TARGET_RESOLUTION thumbnail_size pillow_raises).

(** [notify_exif] ends the way the sink's method ends. *)
Lemma notify_exif_returns (img : Image) (identifier : str)
    (mp : MetadataProducer) :
  (forall i e, notify_exif_update mp i e = Return tt) ->
  snd (notify_exif img identifier mp) = Return tt.
Proof.
  intros Hexif. unfold notify_exif.
  destruct (existsb _ _); [|reflexivity].
  destruct (dict_of _); [reflexivity|]. cbn. apply Hexif.
Qed.



(** What [notify_quality] does for each outcome of the probe. *)
Lemma notify_quality_outcomes (img : Image) (buffer : bytes)
    (identifier : str) (mp : MetadataProducer) :
  let h := fst (size img) in
  let w := snd (size img) in
  notify_quality wand_compression_quality img buffer identifier mp
  = match wand_compression_quality buffer with
    | Return q =>
        ([Probe buffer; QualityUpdate h w identifier (nbytes buffer) (Some q)],
         notify_image_quality_update mp h w identifier (nbytes buffer)
           (Some q))
    | Raise (WandException _) =>
        ([Probe buffer; QualityUpdate h w identifier (nbytes buffer) None],
         notify_image_quality_update mp h w identifier (nbytes buffer) None)
    | Raise e => ([Probe buffer], Raise e)
    end.
Proof.
  unfold notify_quality. destruct (size img) as [h w]. cbn.
  destruct (wand_compression_quality buffer) as [q|[]]; reflexivity.
Qed.


(** C8 (as amended).  When the fetch succeeds (a response with a status
    below 400 whose body is read) and [Image.open] rejects the payload with
    [UnidentifiedImageError], the task makes exactly these calls: it takes
    the permit, fetches, tries to decode, records one error with code
    ["UnidentifiedImageError"], and gives the permit back.  It ends the way
    the call on the stats manager ends; no metadata event is emitted, with
    or without a sink, and nothing is thumbnailed or persisted.  Any other
    exception of [Image.open] reaches the caller with nothing recorded. *)
Theorem corrupt_image_records_one_error
    (persister : EncodedImage -> str -> result unit)
    (session : str -> str -> result (option Response))
    (url identifier : str) (stats : StatsManager) (source : str)
    (metadata_producer : option MetadataProducer) (img_resp : Response)
    (buffer : bytes) :
  session url source = Return (Some img_resp) ->
  status img_resp < 400 ->
  read img_resp = Return buffer ->
  let run := pipeline persister session url identifier stats source
               metadata_producer in
  (Image_open buffer = Raise UnidentifiedImageError ->
   run = ([Acquire; Get url source; Open buffer;
           RecordError source (PyStr (py "UnidentifiedImageError"));
           Release],
          record_error stats source (PyStr (py "UnidentifiedImageError")))
   /\ errors_recorded (fst run) = [PyStr (py "UnidentifiedImageError")]
   /\ filter is_metadata (fst run) = []
   /\ filter is_work (fst run) = [])
  /\ (forall e, Image_open buffer = Raise e ->
                e <> UnidentifiedImageError ->
                run = ([Acquire; Get url source; Open buffer; Release],
                       Raise e)).
Proof.
  intros Hget Hstatus Hread run. split.
  - intros Hopen.
    assert (Hrun : run = ([Acquire; Get url source; Open buffer;
                           RecordError source
                             (PyStr (py "UnidentifiedImageError"));
                           Release],
                          record_error stats source
                            (PyStr (py "UnidentifiedImageError")))).
    { subst run. unfold process_image. rewrite Hget. cbn.
      destruct (Z.geb_spec (status img_resp) 400) as [Hge|_]; [lia|].
      rewrite Hread. cbn. rewrite Hopen. cbn.
      destruct (record_error stats source _) as [[]|e]; reflexivity. }
    rewrite Hrun. repeat split.
  - intros e Hopen He. subst run. unfold process_image. rewrite Hget. cbn.
    destruct (Z.geb_spec (status img_resp) 400) as [Hge|_]; [lia|].
    rewrite Hread. cbn. rewrite Hopen.
    destruct e; try congruence; reflexivity.
Qed.

(** C9 (as amended).  On a decoded image, a probe that fails with an
    exception of the Wand library makes [notify_quality] hand the sink a
    [QualityUpdate] with no compression quality ([None], written [null]),
    and does not make the task fail: with a sink whose methods return, a
    thumbnail that is made and a persister that returns, the task goes on to
    thumbnail, persist and record success.  The codec of
    [worker/message.py] does the same: it queues one message, the JSON of a
    dict whose [compression_quality] is [None].  A probe that fails with an
    exception of another class is not absorbed: the exception leaves both
    versions of [notify_quality], and [process_image] with it, no
    [QualityUpdate] being emitted. *)
Theorem probe_failure_gives_null_quality
    (persister : EncodedImage -> str -> result unit)
    (session : str -> str -> result (option Response))
    (url identifier : str) (stats : StatsManager) (source : str)
    (mp : MetadataProducer) (img_resp : Response) (buffer : bytes)
    (img : Image) :
  session url source = Return (Some img_resp) ->
  status img_resp < 400 ->
  read img_resp = Return buffer ->
  Image_open buffer = Return img ->
  (forall detail,
     wand_compression_quality buffer = Raise (WandException detail) ->
     (exists h w,
        notify_quality wand_compression_quality img buffer identifier mp
        = ([Probe buffer; QualityUpdate h w identifier (nbytes buffer) None],
           notify_image_quality_update mp h w identifier (nbytes buffer)
             None))
     /\ (forall thumb,
           (forall h w i f c,
              notify_image_quality_update mp h w i f c = Return tt) ->
           (forall i e, notify_exif_update mp i e = Return tt) ->
           thumbnail_of img = Return thumb ->
           persister thumb identifier = Return tt ->
           exists h w,
             pipeline persister session url identifier stats source (Some mp)
             = ([Acquire; Get url source; Open buffer; Probe buffer;
                 QualityUpdate h w identifier (nbytes buffer) None]
                  ++ fst (notify_exif img identifier mp)
                  ++ [Thumbnail img; Persist thumb identifier;
                      RecordSuccess source; Release],
                record_success stats source))
     /\ (forall (P : Type) (q : Message.AsyncProducer P),
           exists b h w,
             Message.notify_quality wand_compression_quality img buffer
               identifier q
             = Return (Message.append q b)
             /\ Message.wire_format
                  [(py "height", PyInt h);
                   (py "width", PyInt w);
                   (py "identifier", PyStr identifier);
                   (py "filesize", PyInt (nbytes buffer));
                   (py "compression_quality", PyNone)] b))
  /\ (forall e,
        wand_compression_quality buffer = Raise e ->
        (forall detail, e <> WandException detail) ->
        e <> UnidentifiedImageError ->
        pipeline persister session url identifier stats source (Some mp)
        = ([Acquire; Get url source; Open buffer; Probe buffer; Release],
           Raise e)
        /\ forall (P : Type) (q : Message.AsyncProducer P),
             Message.notify_quality wand_compression_quality img buffer
               identifier q
             = Raise e).
Proof.
  intros Hget Hstatus Hread Hopen. split.
  - intros detail Hprobe. split; [|split].
    + exists (fst (size img)), (snd (size img)).
      rewrite notify_quality_outcomes, Hprobe. reflexivity.
    + intros thumb Hq Hexif Hthumb Hpersist.
      exists (fst (size img)), (snd (size img)).
      unfold process_image. rewrite Hget. cbn.
      destruct (Z.geb_spec (status img_resp) 400) as [Hge|_]; [lia|].
      rewrite Hread. cbn. rewrite Hopen. cbn.
      rewrite notify_quality_outcomes, Hprobe, Hq. cbn.
      pose proof (notify_exif_returns img identifier mp Hexif) as Hsnd.
      destruct (notify_exif img identifier mp) as [t r]. cbn in Hsnd.
      subst r. cbn. rewrite Hthumb. cbn. rewrite Hpersist. cbn.
      destruct (record_success stats source) as [[]|e];
        rewrite <- !app_assoc; reflexivity.
    + intros P q. unfold Message.notify_quality.
      destruct (size img) as [height width]. rewrite Hprobe.
      match goal with
      | |- context [Message.enqueue_message q ?d] =>
          destruct (enqueue_message_queues q d _ eq_refl) as [Hq Hw]
      end.
      eexists. exists height, width. split; [exact Hq | exact Hw].
  - intros e Hprobe Hwand Hunid. split.
    + unfold process_image. rewrite Hget. cbn.
      destruct (Z.geb_spec (status img_resp) 400) as [Hge|_]; [lia|].
      rewrite Hread. cbn. rewrite Hopen. cbn.
      rewrite notify_quality_outcomes, Hprobe.
      destruct e;
        first [ reflexivity
              | congruence
              | exfalso; eapply Hwand; reflexivity ].
    + intros P q. unfold Message.notify_quality.
      destruct (size img) as [height width]. rewrite Hprobe.
      destruct e; first [reflexivity | exfalso; eapply Hwand; reflexivity].
Qed.

(** C3. A fetch that answers 404 makes the task record the numeric code
    and end the way that call ends; it calls no sink, whichever is supplied,
    so no [LinkRotNotice] is produced: [notify_404] is not reached from
    [process_image], which has no parameter for a not-found sink. *)
Theorem not_found_records_status_only
    (persister : EncodedImage -> str -> result unit)
    (url identifier : str) (stats : StatsManager) (source : str)
    (body : result bytes) (metadata_producer : option MetadataProducer) :
  pipeline persister
    (fun _ _ => Return (Some {| status := 404; read := body |}))
    url identifier stats source metadata_producer
  = ([Acquire; Get url source; RecordError source (PyInt 404); Release],
     record_error stats source (PyInt 404)).
Proof.
  unfold process_image. cbn.
  destruct (record_error stats source (PyInt 404)) as [[]|e]; reflexivity.
Qed.


End PipelineFacts.

(** C8, refuted as stated: a picture cut short.  [Image.open] reads its
    header and returns, the quality and EXIF updates go out, and the
    thumbnail step raises [OSError] when it comes to the pixel data: the
    exception reaches the caller, no error is recorded and metadata has been
    emitted. *)
Lemma truncated_image_raises_after_metadata :
  let run := ImagePy.process_image (640, 480)
               (fun _ => Py.Return Doubles.landscape)
               Doubles.shrink_to_fit Doubles.truncated
               (fun _ => Py.Return 75)
               (fun _ _ => Py.Return tt)
               (Doubles.fake_session 200 "JFIF"%string)
               (Py.py "fake_url") (Py.py "id-1") Doubles.quiet_stats
               (Py.py "example") (Some Doubles.quiet_sink) in
  run = ([ImagePy.Acquire; ImagePy.Get (Py.py "fake_url") (Py.py "example");
          ImagePy.Open "JFIF"%string; ImagePy.Probe "JFIF"%string;
          ImagePy.QualityUpdate 640 480 (Py.py "id-1") 4 (Some 75);
          ImagePy.ExifUpdate (Py.py "id-1")
            [(Py.py "0x13b", Py.PyStr (Py.py "unknown"))];
          ImagePy.Thumbnail Doubles.landscape; ImagePy.Release],
         Py.Raise (Py.OtherException "OSError"))
  /\ ImagePy.errors_recorded (fst run) = []
  /\ filter ImagePy.is_metadata (fst run) <> [].
Proof. repeat split. discriminate. Qed.

(** A run of C8 as amended: a sink is configured and the payload is not a
    picture. *)
Lemma corrupt_image_records_one_error_witness :
  ImagePy.process_image (640, 480)
    (fun _ => Py.Raise Py.UnidentifiedImageError)
    Doubles.shrink_to_fit Doubles.sound (fun _ => Py.Return 75)
    (fun _ _ => Py.Return tt)
    (Doubles.fake_session 200 "not a picture"%string)
    (Py.py "fake_url") (Py.py "id-1") Doubles.quiet_stats (Py.py "example")
    (Some Doubles.quiet_sink)
  = ([ImagePy.Acquire; ImagePy.Get (Py.py "fake_url") (Py.py "example");
      ImagePy.Open "not a picture"%string;
      ImagePy.RecordError (Py.py "example")
        (Py.PyStr (Py.py "UnidentifiedImageError"));
      ImagePy.Release], Py.Return tt).
Proof.
  apply (proj1 (proj1
           (corrupt_image_records_one_error (640, 480)
              (fun _ => Py.Raise Py.UnidentifiedImageError)
              Doubles.shrink_to_fit Doubles.sound (fun _ => Py.Return 75)
              (fun _ _ => Py.Return tt)
              (Doubles.fake_session 200 "not a picture"%string)
              (Py.py "fake_url") (Py.py "id-1") Doubles.quiet_stats
              (Py.py "example") (Some Doubles.quiet_sink)
              {| ImagePy.status := 200;
                 ImagePy.read := Py.Return "not a picture"%string |}
              "not a picture"%string
              eq_refl ltac:(simpl; lia) eq_refl) eq_refl)).
Defined.

(** C9, refuted as stated: the probe runs out of memory on a picture
    Pillow decoded.  [MemoryError] is not a Wand exception: it leaves
    [notify_quality] and [process_image], no [QualityUpdate] is emitted and
    the task fails, nothing being thumbnailed, persisted or recorded. *)
Lemma probe_memory_error_fails_task :
  let run := ImagePy.process_image (640, 480)
               (fun _ => Py.Return Doubles.poster)
               Doubles.shrink_to_fit Doubles.sound
               (fun _ => Py.Raise (Py.OtherException "MemoryError"))
               (fun _ _ => Py.Return tt)
               (Doubles.fake_session 200 "PNG"%string)
               (Py.py "https://example.test/a.png") (Py.py "id-1")
               Doubles.quiet_stats (Py.py "example")
               (Some Doubles.quiet_sink) in
  snd run = Py.Raise (Py.OtherException "MemoryError")
  /\ filter ImagePy.is_metadata (fst run) = []
  /\ filter ImagePy.is_stat (fst run) = []
  /\ filter ImagePy.is_work (fst run) = []
  /\ Message.notify_quality
       (fun _ => Py.Raise (Py.OtherException "MemoryError"))
       Doubles.poster "PNG"%string (Py.py "id-1")
       (Message.new tt (Py.py "metadata") 60)
     = Py.Raise (Py.OtherException "MemoryError").
Proof. repeat split. Qed.

(** A run of C9 as amended: the probe fails with a Wand exception on a
    picture Pillow decoded. *)
Lemma probe_failure_gives_null_quality_witness :
  exists h w,
    ImagePy.process_image (640, 480)
      (fun _ => Py.Return Doubles.landscape)
      Doubles.shrink_to_fit Doubles.sound
      (fun _ => Py.Raise (Py.WandException "MissingDelegateError"))
      (fun _ _ => Py.Return tt)
      (Doubles.fake_session 200 "JFIF"%string)
      (Py.py "https://example.test/a.jpg") (Py.py "id-1")
      Doubles.quiet_stats (Py.py "example") (Some Doubles.quiet_sink)
    = ([ImagePy.Acquire;
        ImagePy.Get (Py.py "https://example.test/a.jpg") (Py.py "example");
        ImagePy.Open "JFIF"%string; ImagePy.Probe "JFIF"%string;
        ImagePy.QualityUpdate h w (Py.py "id-1") 4 None]
         ++ [ImagePy.ExifUpdate (Py.py "id-1")
               [(Py.py "0x13b", Py.PyStr (Py.py "unknown"))]]
         ++ [ImagePy.Thumbnail Doubles.landscape;
             ImagePy.Persist
               {| Lib.format := Py.py "JPEG"; Lib.quality := 30;
                  Lib.pixel_size := (640, 480);
                  Lib.pixel_mode := Py.py "RGB" |}
               (Py.py "id-1");
             ImagePy.RecordSuccess (Py.py "example"); ImagePy.Release],
       Py.Return tt).
Proof.
  apply (proj1 (proj2
           (proj1
              (probe_failure_gives_null_quality (640, 480)
                 (fun _ => Py.Return Doubles.landscape)
                 Doubles.shrink_to_fit Doubles.sound
                 (fun _ => Py.Raise (Py.WandException "MissingDelegateError"))
                 (fun _ _ => Py.Return tt)
                 (Doubles.fake_session 200 "JFIF"%string)
                 (Py.py "https://example.test/a.jpg") (Py.py "id-1")
                 Doubles.quiet_stats (Py.py "example") Doubles.quiet_sink
                 {| ImagePy.status := 200;
                    ImagePy.read := Py.Return "JFIF"%string |}
                 "JFIF"%string Doubles.landscape
                 eq_refl ltac:(simpl; lia) eq_refl eq_refl)
              "MissingDelegateError"%string eq_refl))
           {| Lib.format := Py.py "JPEG"; Lib.quality := 30;
              Lib.pixel_size := (640, 480); Lib.pixel_mode := Py.py "RGB" |}
           (fun _ _ _ _ _ => eq_refl) (fun _ _ => eq_refl)
           eq_refl eq_refl).
Defined.



(** C6.  Pillow's [img.size] is [(width, height)], and both versions of
    [notify_quality] unpack it as [height, width]: whatever the picture, the
    event's [height] is the picture's width and its [width] the picture's
    height.  The file size is the number of bytes fetched. *)
Theorem quality_update_transposes_dimensions
    (P : Type) (metadata_producer : Message.AsyncProducer P)
    (mp : ImagePy.MetadataProducer)
    (img : Lib.Image) (buffer : Py.bytes) (identifier : Py.str) (cq : Z) :
  ImagePy.notify_quality (fun _ => Py.Return cq) img buffer identifier mp
  = ([ImagePy.Probe buffer;
      ImagePy.QualityUpdate (Lib.width img) (Lib.height img) identifier
        (Lib.nbytes buffer) (Some cq)],
     ImagePy.notify_image_quality_update mp (Lib.width img) (Lib.height img)
       identifier (Lib.nbytes buffer) (Some cq))
  /\ Message.notify_quality (fun _ => Py.Return cq) img buffer identifier
       metadata_producer
     = Message.enqueue_message metadata_producer
         [(Py.py "height", Py.PyInt (Lib.width img));
          (Py.py "width", Py.PyInt (Lib.height img));
          (Py.py "identifier", Py.PyStr identifier);
          (Py.py "filesize", Py.PyInt (Lib.nbytes buffer));
          (Py.py "compression_quality", Py.PyInt cq)].
Proof.
  unfold ImagePy.notify_quality, Message.notify_quality, Lib.width, Lib.height.
  destruct (Lib.size img) as [a b]. split; reflexivity.
Qed.

(** The 640 by 480 picture is announced as 640 high and 480 wide. *)
Example landscape_announced_as_portrait :
  Lib.height Doubles.landscape = 480
  /\ fst (ImagePy.notify_quality (fun _ => Py.Return 75) Doubles.landscape
            "JFIF"%string (Py.py "id-1") Doubles.quiet_sink)
     = [ImagePy.Probe "JFIF"%string;
        ImagePy.QualityUpdate 640 480 (Py.py "id-1") 4 (Some 75)].
Proof. split; reflexivity. Qed.

(** [shrink_to_fit] never exceeds a request of at least one pixel each
    way. *)
Lemma shrink_to_fit_within (req cur : Z * Z) :
  1 <= fst req -> 1 <= snd req ->
  fst (Doubles.shrink_to_fit req cur) <= fst req
  /\ snd (Doubles.shrink_to_fit req cur) <= snd req.
Proof.
  destruct req as [X Y], cur as [x y]. cbn [fst snd]. intros HX HY.
  unfold Doubles.shrink_to_fit. cbn [fst snd].
  assert (Hdiv : forall a b, a <= X -> Y < b -> Z.max (a * Y / b) 1 <= X).
  { intros a b Ha Hb. apply Z.max_lub; [|lia].
    destruct (Z_le_gt_dec 0 a) as [Hpos|Hneg].
    - apply Z.div_le_upper_bound; nia.
    - assert (a * Y / b <= 0); [|lia].
      apply Z.div_le_upper_bound; nia. }
  destruct (Z.gtb_spec x X) as [Hx|Hx].
  - destruct (Z.gtb_spec (Z.max (y * X / x) 1) Y) as [Hy|Hy]; cbn [fst snd].
    + split; [apply Hdiv; lia | lia].
    + split; lia.
  - destruct (Z.gtb_spec y Y) as [Hy|Hy]; cbn [fst snd].
    + split; [apply Hdiv; lia | lia].
    + split; lia.
Qed.

(** [shrink_to_fit] leaves alone what already fits. *)
Lemma shrink_to_fit_noop (req cur : Z * Z) :
  fst cur <= fst req -> snd cur <= snd req ->
  Doubles.shrink_to_fit req cur = cur.
Proof.
  destruct req as [X Y], cur as [x y]. cbn [fst snd]. intros HX HY.
  unfold Doubles.shrink_to_fit. cbn [fst snd].
  destruct (Z.gtb_spec x X) as [Hx|Hx]; [lia|].
  destruct (Z.gtb_spec y Y) as [Hy|Hy]; [lia|]. reflexivity.
Qed.

(** What [thumbnail_image] returns, when it returns: a JPEG of quality 30
    in RGB, of the size [Image.thumbnail] gave the picture. *)
Lemma thumbnail_image_returns
    (TARGET_RESOLUTION : Z * Z) (thumbnail_size : Z * Z -> Z * Z -> Z * Z)
    (pillow_raises : Lib.pillow_call -> option Py.exn)
    (img : Lib.Image) (out : Lib.EncodedImage) :
  ImagePy.thumbnail_image TARGET_RESOLUTION thumbnail_size pillow_raises img
  = Py.Return out ->
  out = {| Lib.format := Py.py "JPEG"; Lib.quality := 30;
           Lib.pixel_size := thumbnail_size TARGET_RESOLUTION (Lib.size img);
           Lib.pixel_mode := Py.py "RGB" |}.
Proof.
  unfold ImagePy.thumbnail_image, ImagePy.thumbnail, ImagePy.pillow.
  destruct (pillow_raises (Lib.CallThumbnail _ _)); [discriminate|].
  cbn [Lib.mode].
  destruct (Py.str_eqb (Lib.mode img) (Py.py "RGB")) eqn:He; cbn [negb].
  - apply str_eqb_eq in He.
    destruct (pillow_raises (Lib.CallSave _ _ _)); [discriminate|].
    intros H. injection H as <-. unfold Lib.save. cbn. rewrite He.
    reflexivity.
  - destruct (pillow_raises (Lib.CallConvert _ _)); [discriminate|].
    destruct (pillow_raises (Lib.CallSave _ _ _)); [discriminate|].
    intros H. injection H as <-. reflexivity.
Qed.

(** C7.  [thumbnail_image] hands the picture to [Image.thumbnail] with the
    configured envelope, converts it to RGB unless it already is, and saves
    it as JPEG at quality 30.  Given what Pillow documents of
    [Image.thumbnail] (the result is no larger than the requested size, and
    a picture that already fits is left as it is), the thumbnail it returns
    fits the envelope in both dimensions, a picture within the envelope
    keeps its size, and the output is always RGB, JPEG, quality 30.  It
    returns a thumbnail whenever no call on the picture raises, and raises
    only what such a call raised. *)
Theorem thumbnail_fits_envelope
    (TARGET_RESOLUTION : Z * Z) (thumbnail_size : Z * Z -> Z * Z -> Z * Z)
    (pillow_raises : Lib.pillow_call -> option Py.exn)
    (img : Lib.Image) :
  (forall cur,
     fst (thumbnail_size TARGET_RESOLUTION cur) <= fst TARGET_RESOLUTION
     /\ snd (thumbnail_size TARGET_RESOLUTION cur) <= snd TARGET_RESOLUTION) ->
  (forall cur,
     fst cur <= fst TARGET_RESOLUTION -> snd cur <= snd TARGET_RESOLUTION ->
     thumbnail_size TARGET_RESOLUTION cur = cur) ->
  let made := ImagePy.thumbnail_image TARGET_RESOLUTION thumbnail_size
                pillow_raises img in
  (forall out,
     made = Py.Return out ->
     fst (Lib.pixel_size out) <= fst TARGET_RESOLUTION
     /\ snd (Lib.pixel_size out) <= snd TARGET_RESOLUTION
     /\ (Lib.width img <= fst TARGET_RESOLUTION ->
         Lib.height img <= snd TARGET_RESOLUTION ->
         Lib.pixel_size out = Lib.size img)
     /\ Lib.pixel_mode out = Py.py "RGB"
     /\ Lib.format out = Py.py "JPEG"
     /\ Lib.quality out = 30)
  /\ ((forall c, pillow_raises c = None) -> exists out, made = Py.Return out)
  /\ (forall e, made = Py.Raise e -> exists c, pillow_raises c = Some e).
Proof.
  intros Hwithin Hnoop made. split; [|split].
  - intros out Hout. subst made.
    rewrite (thumbnail_image_returns _ _ _ _ _ Hout). cbn.
    destruct (Hwithin (Lib.size img)) as [Hw Hh].
    repeat split; try assumption.
    intros Hfw Hfh. apply Hnoop; assumption.
  - intros Hsound. subst made.
    unfold ImagePy.thumbnail_image, ImagePy.thumbnail, ImagePy.pillow.
    rewrite !Hsound. destruct (negb _); rewrite !Hsound; eauto.
  - intros e. subst made.
    unfold ImagePy.thumbnail_image, ImagePy.thumbnail, ImagePy.pillow.
    destruct (pillow_raises (Lib.CallThumbnail _ _)) as [e1|] eqn:E1;
      [intros H; injection H as <-; eauto|].
    destruct (negb _).
    + destruct (pillow_raises (Lib.CallConvert _ _)) as [e2|] eqn:E2;
        [intros H; injection H as <-; eauto|].
      destruct (pillow_raises (Lib.CallSave _ _ _)) as [e3|] eqn:E3;
        [intros H; injection H as <-; eauto | discriminate].
    + destruct (pillow_raises (Lib.CallSave _ _ _)) as [e3|] eqn:E3;
        [intros H; injection H as <-; eauto | discriminate].
Qed.

(** A run of C7: a 4000 by 1000 RGBA poster under the 640 by 480
    envelope. *)
Lemma thumbnail_fits_envelope_witness :
  exists out,
    ImagePy.thumbnail_image (640, 480) Doubles.shrink_to_fit Doubles.sound
      Doubles.poster = Py.Return out
    /\ fst (Lib.pixel_size out) <= 640
    /\ snd (Lib.pixel_size out) <= 480
    /\ Lib.pixel_mode out = Py.py "RGB"
    /\ Lib.format out = Py.py "JPEG"
    /\ Lib.quality out = 30.
Proof.
  destruct (thumbnail_fits_envelope (640, 480) Doubles.shrink_to_fit
              Doubles.sound Doubles.poster)
    as (Hout & Hreturns & _).
  - intros cur. apply shrink_to_fit_within; simpl; lia.
  - intros cur. apply shrink_to_fit_noop.
  - destruct (Hreturns (fun _ => eq_refl)) as [out Hmade].
    exists out. split; [exact Hmade|].
    destruct (Hout out Hmade) as (H1 & H2 & _ & H4 & H5 & H6).
    repeat split; assumption.
Defined.
(* ================================================================== *)
(** ** Properties of the codec and the parser ([worker/message.py]) *)
(* ================================================================== *)

(** C5, refuted as stated: the retry notice for identifier ["id-1"] goes on
    the wire as the JSON of a dict whose fields are [url], [uuid], [source]
    and [attempts]; it has no field named [identifier]. *)
Lemma retry_notice_lacks_identifier_field :
  let q := Message.new tt (Py.py "retries") 60 in
  let notice := [(Py.py "url", Py.PyStr (Py.py "https://example.test/a.jpg"));
                 (Py.py "uuid", Py.PyStr (Py.py "id-1"));
                 (Py.py "source", Py.PyStr (Py.py "example"));
                 (Py.py "attempts", Py.PyInt 1)] in
  Message.notify_retry (Py.py "id-1") (Py.py "example")
    (Py.py "https://example.test/a.jpg") 1 q
  = Message.enqueue_message q notice
  /\ (exists b, Message.enqueue_message q notice
                = Py.Return (Message.append q b)
                /\ Message.wire_format notice b)
  /\ Py.dict_get notice (Py.py "identifier") = None
  /\ Py.dict_get notice (Py.py "uuid") = Some (Py.PyStr (Py.py "id-1")).
Proof.
  intros q notice. split; [reflexivity|]. split; [|split; reflexivity].
  eexists. apply enqueue_message_queues. reflexivity.
Qed.

(** C5 (as amended).  Each event the codec emits is queued as the UTF-8
    bytes of a JSON object whose field names are those written in the code:
    - a retry notice has [url], [uuid] (holding the identifier), [source]
      and [attempts];
    - a link-rot notice has [identifier] and [timestamp];
    - a quality update has [height], [width], [identifier], [filesize] and
      [compression_quality], the last one an integer or [None], never a
      string;
    - an EXIF update, when one is queued, has [identifier] and [exif]. *)
Theorem events_go_out_as_utf8_json
    (P : Type) (q : Message.AsyncProducer P)
    (wand_compression_quality : Py.bytes -> Py.result Z)
    (img : Lib.Image) (buffer : Py.bytes)
    (identifier source url utcnow_isoformat : Py.str) (attempts : Z) :
  (exists b,
     Message.notify_retry identifier source url attempts q
     = Py.Return (Message.append q b)
     /\ Message.wire_format
          [(Py.py "url", Py.PyStr url);
           (Py.py "uuid", Py.PyStr identifier);
           (Py.py "source", Py.PyStr source);
           (Py.py "attempts", Py.PyInt attempts)] b)
  /\ (exists b,
        Message.notify_404 utcnow_isoformat identifier q
        = Py.Return (Message.append q b)
        /\ Message.wire_format
             [(Py.py "identifier", Py.PyStr identifier);
              (Py.py "timestamp", Py.PyStr utcnow_isoformat)] b)
  /\ (forall q',
        Message.notify_quality wand_compression_quality img buffer
          identifier q = Py.Return q' ->
        exists b h w cq,
          q' = Message.append q b
          /\ Message.wire_format
               [(Py.py "height", Py.PyInt h);
                (Py.py "width", Py.PyInt w);
                (Py.py "identifier", Py.PyStr identifier);
                (Py.py "filesize", Py.PyInt (Lib.nbytes buffer));
                (Py.py "compression_quality", cq)] b
          /\ ((cq = Py.PyNone
               /\ exists detail, wand_compression_quality buffer
                                 = Py.Raise (Py.WandException detail))
              \/ (exists n, cq = Py.PyInt n
                            /\ wand_compression_quality buffer
                               = Py.Return n)))
  /\ (forall q',
        Message.notify_exif img identifier q = Py.Return q' ->
        q' = q
        \/ exists b exif,
             q' = Message.append q b
             /\ Message.wire_format
                  [(Py.py "identifier", Py.PyStr identifier);
                   (Py.py "exif", Py.PyDict exif)] b).
Proof.
  repeat split.
  - eexists. apply enqueue_message_queues. reflexivity.
  - eexists. apply enqueue_message_queues. reflexivity.
  - intros q' Hq'. unfold Message.notify_quality in Hq'.
    destruct (Lib.size img) as [height width].
    destruct (wand_compression_quality buffer) as [n|[]] eqn:Eprobe;
      try discriminate.
    + exists (Py.of_octets
                (match Py.json_dumps
                         (Py.PyDict
                            [(Py.py "height", Py.PyInt height);
                             (Py.py "width", Py.PyInt width);
                             (Py.py "identifier", Py.PyStr identifier);
                             (Py.py "filesize", Py.PyInt (Lib.nbytes buffer));
                             (Py.py "compression_quality", Py.PyInt n)])
                 with Py.Return t => t | Py.Raise _ => [] end)),
        height, width, (Py.PyInt n).
      match type of Hq' with
      | Message.enqueue_message _ ?d = _ =>
          destruct (enqueue_message_queues q d _ eq_refl) as [Hq Hw];
          rewrite Hq in Hq'
      end.
      injection Hq' as <-. repeat split; [exact Hw | right; eauto].
    + exists (Py.of_octets
                (match Py.json_dumps
                         (Py.PyDict
                            [(Py.py "height", Py.PyInt height);
                             (Py.py "width", Py.PyInt width);
                             (Py.py "identifier", Py.PyStr identifier);
                             (Py.py "filesize", Py.PyInt (Lib.nbytes buffer));
                             (Py.py "compression_quality", Py.PyNone)])
                 with Py.Return t => t | Py.Raise _ => [] end)),
        height, width, Py.PyNone.
      match type of Hq' with
      | Message.enqueue_message _ ?d = _ =>
          destruct (enqueue_message_queues q d _ eq_refl) as [Hq Hw];
          rewrite Hq in Hq'
      end.
      injection Hq' as <-. repeat split; [exact Hw | left; eauto].
  - intros q' Hq'. unfold Message.notify_exif in Hq'.
    destruct (existsb _ _); [|injection Hq' as <-; left; reflexivity].
    destruct (Py.dict_of (map _ _)) as [|kv exif] eqn:Eexif;
      [injection Hq' as <-; left; reflexivity|].
    match type of Hq' with
    | Message.enqueue_message _ ?d = _ =>
        destruct (Py.json_dumps (Py.PyDict d)) as [text|e] eqn:Etext
    end.
    + destruct (enqueue_message_queues q _ text Etext) as [Hq Hw].
      rewrite Hq in Hq'. injection Hq' as <-.
      right. exists (Py.of_octets text), (kv :: exif). split; [reflexivity|].
      exact Hw.
    + rewrite (enqueue_message_drops q _ e Etext) in Hq'.
      injection Hq' as <-. left. reflexivity.
Qed.

(** A run of C5 as amended: the quality update of a picture whose probe
    failed is queued with the five fields, [compression_quality] being
    [None] or an integer. *)
Lemma events_go_out_as_utf8_json_witness :
  let q := Message.new tt (Py.py "metadata") 60 in
  let probe := fun _ : Py.bytes =>
                 @Py.Raise Z (Py.WandException "CorruptImageError") in
  let q' := match Message.notify_quality probe Doubles.landscape
                    "JFIF"%string (Py.py "id-1") q with
            | Py.Return q' => q'
            | Py.Raise _ => q
            end in
  exists b h w cq,
    q' = Message.append q b
    /\ Message.wire_format
         [(Py.py "height", Py.PyInt h);
          (Py.py "width", Py.PyInt w);
          (Py.py "identifier", Py.PyStr (Py.py "id-1"));
          (Py.py "filesize", Py.PyInt (Lib.nbytes "JFIF"%string));
          (Py.py "compression_quality", cq)] b
    /\ ((cq = Py.PyNone
         /\ exists detail, probe "JFIF"%string
                           = Py.Raise (Py.WandException detail))
        \/ (exists n, cq = Py.PyInt n /\ probe "JFIF"%string = Py.Return n)).
Proof.
  intros q probe q'.
  apply (proj1 (proj2 (proj2
           (events_go_out_as_utf8_json unit q probe Doubles.landscape
              "JFIF"%string (Py.py "id-1") (Py.py "example")
              (Py.py "https://example.test/a.jpg")
              (Py.py "2020-01-01T00:00:00") 1))) q').
  reflexivity.
Defined.

(** C10, refuted as stated: a payload that is not UTF-8 (the single byte
    0xFF) makes [parse_message] raise to its caller. *)
Lemma parse_message_raises_on_bad_utf8 :
  Message.parse_message Doubles.loads_scalar
    {| Message.value := Py.of_octets [255%N] |}
  = Py.Raise Py.UnicodeDecodeError
  /\ Py.returns (Message.parse_message Doubles.loads_scalar
                   {| Message.value := Py.of_octets [255%N] |}) = false.
Proof. split; reflexivity. Qed.

(** C10 (as amended).  [parse_message] never raises a JSON decode error.
    On a payload that is valid UTF-8 it returns what [json.loads] returns,
    and [None] when [json.loads] reports that the text is not JSON.  A
    payload that is not valid UTF-8 makes it raise [UnicodeDecodeError]. *)
Theorem parse_message_outcomes
    (json_loads : Py.str -> Py.result Py.pyval) (msg : Message.KafkaMessage) :
  Message.parse_message json_loads msg <> Py.Raise Py.JSONDecodeError
  /\ (forall text, Py.decode_utf8 (Message.value msg) = Py.Return text ->
        (forall v, json_loads text = Py.Return v ->
                   Message.parse_message json_loads msg = Py.Return v)
        /\ (json_loads text = Py.Raise Py.JSONDecodeError ->
            Message.parse_message json_loads msg = Py.Return Py.PyNone))
  /\ (forall e, Py.decode_utf8 (Message.value msg) = Py.Raise e ->
        e = Py.UnicodeDecodeError
        /\ Message.parse_message json_loads msg
           = Py.Raise Py.UnicodeDecodeError).
Proof.
  unfold Message.parse_message, Py.decode_utf8.
  destruct (Py.utf8_code_points (Py.octets (Message.value msg))) as [s|].
  - split; [|split].
    + destruct (json_loads s) as [v|[]]; discriminate.
    + intros text Htext. injection Htext as <-.
      split; [intros v -> | intros ->]; reflexivity.
    + intros e He. discriminate He.
  - split; [discriminate|]. split.
    + intros text Htext. discriminate Htext.
    + intros e He. injection He as <-. split; reflexivity.
Qed.

(** Runs of C10 as amended: an integer, and text that is not JSON. *)
Lemma parse_message_outcomes_witness :
  Message.parse_message Doubles.loads_scalar {| Message.value := "42"%string |}
  = Py.Return (Py.PyInt 42)
  /\ Message.parse_message Doubles.loads_scalar
       {| Message.value := "{oops"%string |}
     = Py.Return Py.PyNone.
Proof.
  split.
  - apply (proj1 (proj1 (proj2
             (parse_message_outcomes Doubles.loads_scalar
                {| Message.value := "42"%string |}))
             (Py.py "42") eq_refl)).
    reflexivity.
  - apply (proj2 (proj1 (proj2
             (parse_message_outcomes Doubles.loads_scalar
                {| Message.value := "{oops"%string |}))
             (Py.py "{oops") eq_refl)).
    reflexivity.
Defined.

(* ================================================================== *)
(** ** Properties of the publisher's flush loop ([AsyncProducer.listen]) *)
(* ================================================================== *)

Lemma attempted_app (a b : list Message.call) :
  Message.attempted (a ++ b) = Message.attempted a ++ Message.attempted b.
Proof.
  induction a as [|[t m o|t|t] a IH]; cbn; rewrite ?IH; reflexivity.
Qed.

Lemma backoffs_app (a b : list Message.call) :
  Message.backoffs (a ++ b) = (Message.backoffs a + Message.backoffs b)%nat.
Proof.
  induction a as [|[t m [u|[]]|t|t] a IH]; cbn; rewrite ?IH; reflexivity.
Qed.

Lemma skipn_nth_error {A} (l : list A) (i : nat) (x : A) :
  nth_error l i = Some x -> skipn i l = x :: skipn (S i) l.
Proof.
  revert i. induction l as [|y l IH]; intros [|i]; cbn; try discriminate.
  - intros H. injection H as ->. reflexivity.
  - intros H. apply IH in H. exact H.
Qed.

Lemma skipn_tl {A} (l : list A) (k : nat) : skipn (S k) l = skipn k (tl l).
Proof. destruct l; [destruct k|]; reflexivity. Qed.

Lemma concat_firstn_tl {A} (l : list (list A)) (k : nat) :
  List.concat (firstn (S k) l) = hd [] l ++ List.concat (firstn k (tl l)).
Proof. destruct l; [destruct k|]; reflexivity. Qed.

Lemma length_concat_tl {A} (l : list (list A)) :
  List.length (List.concat l)
  = (List.length (hd [] l) + List.length (List.concat (tl l)))%nat.
Proof. destruct l; cbn; [reflexivity|]. apply length_app. Qed.

Section FlushFacts.
Import Py Message.
Context {P : Type}.
Variable produce : P -> str -> bytes -> result unit * P.
Variable poll : P -> Z -> P.

(** The client signals nothing but a full buffer. *)
Hypothesis only_buffer_error :
  forall p topic msg e, fst (produce p topic msg) = Raise e -> e = BufferError.

Lemma pass_for_next (fuel : nat) (arrivals : list (list bytes))
    (s : task P) (i : nat) :
  at_ s = ForNext i ->
  listen_pass produce poll (S fuel) arrivals s
  = listen_pass produce poll fuel arrivals (listen_step produce poll s).
Proof. intros Hat. cbn [listen_pass]. rewrite Hat. reflexivity. Qed.

Lemma pass_attempts (fuel : nat) (arrivals : list (list bytes))
    (s : task P) (i : nat) (msg : bytes) (n : Z) :
  at_ s = WhileAttempts i msg n ->
  listen_pass produce poll (S fuel) arrivals s
  = listen_pass produce poll fuel arrivals (listen_step produce poll s).
Proof. intros Hat. cbn [listen_pass]. rewrite Hat. reflexivity. Qed.

Lemma pass_backoff (fuel : nat) (arrivals : list (list bytes))
    (s : task P) (i : nat) (msg : bytes) (n : Z) :
  at_ s = BackoffSleep i msg n ->
  listen_pass produce poll (S fuel) arrivals s
  = listen_pass produce poll fuel (tl arrivals)
      (listen_step produce poll (arrive (hd [] arrivals) s)).
Proof. intros Hat. cbn [listen_pass]. rewrite Hat. reflexivity. Qed.

Lemma step_for_next (s : task P) (i : nat) (msg : bytes) :
  at_ s = ForNext i ->
  nth_error (_messages (self s)) i = Some msg ->
  listen_step produce poll s = goto s (WhileAttempts i msg 0) [].
Proof. intros Hat Hnth. unfold listen_step. rewrite Hat, Hnth. reflexivity. Qed.

Lemma step_for_end (s : task P) (i : nat) :
  at_ s = ForNext i ->
  nth_error (_messages (self s)) i = None ->
  listen_step produce poll s
  = {| self := set_messages (self s) [];
       at_ := IntervalSleep;
       calls := calls s ++ [Sleep (frequency (self s))] |}.
Proof. intros Hat Hnth. unfold listen_step. rewrite Hat, Hnth. reflexivity. Qed.

Lemma step_first_attempt (s : task P) (i : nat) (msg : bytes) :
  at_ s = WhileAttempts i msg 0 ->
  listen_step produce poll s
  = let me := self s in
    let (outcome, p) := produce (producer me) (topic_name me) msg in
    match outcome with
    | Return _ =>
        {| self := set_producer me p;
           at_ := ForNext (S i);
           calls := calls s ++ [Produce (topic_name me) msg outcome] |}
    | Raise BufferError =>
        {| self := set_producer me (poll p 1);
           at_ := BackoffSleep i msg (0 + 1);
           calls := calls s ++ [Produce (topic_name me) msg outcome;
                                Poll 1; Sleep 5] |}
    | Raise e =>
        {| self := set_producer me p;
           at_ := Raised e;
           calls := calls s ++ [Produce (topic_name me) msg outcome] |}
    end.
Proof. intros Hat. unfold listen_step. rewrite Hat. reflexivity. Qed.

(** After the back-off sleep the task leaves the [while] loop: the next
    statement is [break]. *)
Lemma step_after_backoff (s : task P) (i : nat) (msg : bytes) (n : Z) :
  at_ s = BackoffSleep i msg n ->
  listen_step produce poll s = goto s (ForNext (S i)) [].
Proof. intros Hat. unfold listen_step. rewrite Hat. reflexivity. Qed.

(** From any point of the [for] loop, the pass ends in the interval sleep
    with the queue emptied, having handed to the client the rest of the
    queue and everything that arrived during its back-off sleeps, in
    order. *)
Lemma for_loop_finishes (n : nat) :
  forall (s : task P) (i : nat) (arrivals : list (list bytes)),
    at_ s = ForNext i ->
    (List.length (_messages (self s)) - i + List.length (List.concat arrivals)
     <= n)%nat ->
    exists fuel s1 k,
      listen_pass produce poll fuel arrivals s = Some (s1, skipn k arrivals)
      /\ at_ s1 = IntervalSleep
      /\ _messages (self s1) = []
      /\ attempted (calls s1)
         = attempted (calls s) ++ skipn i (_messages (self s))
             ++ List.concat (firstn k arrivals)
      /\ backoffs (calls s1) = (backoffs (calls s) + k)%nat.
Proof.
  assert (Hend : forall (s : task P) i arrivals,
            at_ s = ForNext i ->
            nth_error (_messages (self s)) i = None ->
            exists fuel s1 k,
              listen_pass produce poll fuel arrivals s
              = Some (s1, skipn k arrivals)
              /\ at_ s1 = IntervalSleep
              /\ _messages (self s1) = []
              /\ attempted (calls s1)
                 = attempted (calls s) ++ skipn i (_messages (self s))
                     ++ List.concat (firstn k arrivals)
              /\ backoffs (calls s1) = (backoffs (calls s) + k)%nat).
  { intros s i arrivals Hat Hnone.
    exists 2%nat, (listen_step produce poll s), 0%nat.
    rewrite (pass_for_next _ _ _ _ Hat), (step_for_end _ _ Hat Hnone).
    cbn. rewrite attempted_app, backoffs_app. cbn.
    rewrite skipn_all2 by (apply nth_error_None; exact Hnone).
    rewrite !app_nil_r. repeat split; lia. }
  induction n as [|n IH]; intros s i arrivals Hat Hn.
  - apply Hend; [exact Hat|]. apply nth_error_None. lia.
  - destruct (nth_error (_messages (self s)) i) as [msg|] eqn:Hnth;
      [|apply Hend; assumption].
    assert (Hlt : (i < List.length (_messages (self s)))%nat).
    { apply nth_error_Some. congruence. }
    pose proof (step_first_attempt (goto s (WhileAttempts i msg 0) []) i msg
                  eq_refl) as Hstep.
    cbn [self goto calls] in Hstep.
    destruct (produce (producer (self s)) (topic_name (self s)) msg)
      as [outcome p] eqn:Hproduce.
    destruct outcome as [u|e].
    + (* the client took the message *)
      match type of Hstep with _ = ?s2 =>
        destruct (IH s2 (S i) arrivals eq_refl)
          as (fuel & s1 & k & Hrun & H1 & H2 & H3 & H4); [cbn; lia|]
      end.
      exists (S (S fuel)), s1, k.
      split; [|split; [exact H1 | split; [exact H2 | split]]].
      * rewrite (pass_for_next _ _ _ _ Hat), (step_for_next _ _ _ Hat Hnth).
        rewrite pass_attempts with (i := i) (msg := msg) (n := 0)
          by reflexivity.
        rewrite Hstep. exact Hrun.
      * rewrite H3, (skipn_nth_error _ _ _ Hnth).
        cbn [calls self set_producer _messages].
        rewrite !attempted_app, app_nil_r. cbn [attempted app].
        rewrite <- !app_assoc. reflexivity.
      * rewrite H4. cbn [calls]. rewrite !backoffs_app. cbn. lia.
    + (* the buffer was full: one back-off sleep, then on to the next *)
      assert (He : e = BufferError).
      { apply (only_buffer_error (producer (self s)) (topic_name (self s))
                 msg). rewrite Hproduce. reflexivity. }
      subst e.
      match type of Hstep with _ = ?s2 =>
        pose proof (step_after_backoff (arrive (hd [] arrivals) s2) i msg
                      (0 + 1) eq_refl) as Hwake
      end.
      match type of Hwake with _ = ?s3 =>
        destruct (IH s3 (S i) (tl arrivals) eq_refl)
          as (fuel & s1 & k & Hrun & H1 & H2 & H3 & H4);
          [cbn; rewrite length_app;
           pose proof (length_concat_tl arrivals); lia|]
      end.
      exists (S (S (S fuel))), s1, (S k).
      split; [|split; [exact H1 | split; [exact H2 | split]]].
      * rewrite (pass_for_next _ _ _ _ Hat), (step_for_next _ _ _ Hat Hnth).
        rewrite pass_attempts with (i := i) (msg := msg) (n := 0)
          by reflexivity.
        rewrite Hstep.
        rewrite pass_backoff with (i := i) (msg := msg) (n := 0 + 1)
          by reflexivity.
        rewrite Hwake, skipn_tl. exact Hrun.
      * rewrite H3, concat_firstn_tl, (skipn_nth_error _ _ _ Hnth).
        cbn [calls self set_producer set_messages _messages goto arrive].
        rewrite !attempted_app, !app_nil_r. cbn [attempted app].
        rewrite skipn_app.
        replace (S i - List.length (_messages (self s)))%nat with 0%nat
          by lia.
        cbn [skipn]. rewrite <- !app_assoc. reflexivity.
      * rewrite H4. cbn [calls goto arrive]. rewrite !backoffs_app. cbn. lia.
Qed.

(** C1 (as amended).  With a publish client that raises nothing but
    [BufferError], a pass of the run loop over a non-empty queue does not
    take the queue away when it begins: on entering the [for] loop the
    queue still holds the batch.  The pass then comes to its interval sleep
    having handed to the publish client, one attempt each and in order,
    every message that was queued when it began followed by every message
    enqueued during its back-off sleeps; only then is the queue emptied.
    [k] is the number of back-off sleeps, and the arrivals beyond the first
    [k] are left for later. *)
Theorem flush_hands_over_queue_and_arrivals
    (me : AsyncProducer P) (arrivals : list (list bytes)) :
  _messages me <> [] ->
  let begun := listen_step produce poll (start me) in
  at_ begun = ForNext 0
  /\ _messages (self begun) = _messages me
  /\ exists fuel s1 k,
       listen_pass produce poll fuel arrivals (start me)
       = Some (s1, skipn k arrivals)
       /\ at_ s1 = IntervalSleep
       /\ k = backoffs (calls s1)
       /\ attempted (calls s1)
          = _messages me ++ List.concat (firstn k arrivals)
       /\ _messages (self s1) = [].
Proof.
  intros Hqueue begun.
  assert (Hbegun : begun = goto (start me) (ForNext 0) []).
  { subst begun. unfold listen_step. cbn [at_ start self].
    destruct (_messages me) as [|m q]; [congruence | reflexivity]. }
  rewrite Hbegun. split; [reflexivity|]. split; [reflexivity|].
  destruct (for_loop_finishes
              (List.length (_messages me) + List.length (List.concat arrivals))
              (goto (start me) (ForNext 0) []) 0 arrivals eq_refl)
    as (fuel & s1 & k & Hrun & H1 & H2 & H3 & H4); [cbn; lia|].
  exists (S fuel), s1, k.
  split; [|split; [exact H1 | split; [|split; [|exact H2]]]].
  - cbn [listen_pass at_ start]. fold begun. rewrite Hbegun. exact Hrun.
  - rewrite H4. reflexivity.
  - rewrite H3. reflexivity.
Qed.

End FlushFacts.

Lemma scripted_only_buffer_error (p : list bool) (topic : Py.str)
    (msg : Py.bytes) (e : Py.exn) :
  fst (Doubles.scripted_produce p topic msg) = Py.Raise e ->
  e = Py.BufferError.
Proof.
  destruct p as [|[|] p]; cbn; intros H; try discriminate.
  injection H as <-. reflexivity.
Qed.

(** C1, refuted as stated.  The queue holds ["a"] and the client's buffer is
    full at the first call.  When the flush begins the queue is not empty:
    it still holds ["a"].  ["b"], enqueued during the back-off sleep, is
    handed to the client in this same flush, after which the queue is empty;
    so the next pass sends nothing, and ["b"] is in no later batch. *)
Lemma arrival_during_flush_joins_current_batch :
  let me := {| Message.frequency := 60; Message.producer := [true];
               Message.topic_name := Py.py "metadata";
               Message._messages := ["a"%string] |} in
  let run := Message.listen_pass Doubles.scripted_produce Doubles.scripted_poll in
  let begun := Message.listen_step Doubles.scripted_produce Doubles.scripted_poll
                 (Message.start me) in
  Message._messages (Message.self begun) = ["a"%string]
  /\ Message._messages (Message.self begun) <> []
  /\ (exists s1,
        run 10%nat [["b"%string]] (Message.start me) = Some (s1, [])
        /\ Message.attempted (Message.calls s1) = ["a"%string; "b"%string]
        /\ Message.delivered (Message.calls s1) = ["b"%string]
        /\ Message._messages (Message.self s1) = []
        /\ exists s2,
             run 10%nat []
               (Message.listen_step Doubles.scripted_produce Doubles.scripted_poll s1)
             = Some (s2, [])
             /\ Message.calls s2
                = Message.calls s1 ++ [Message.Sleep 60]).
Proof.
  intros me run begun.
  split; [reflexivity|]. split; [discriminate|].
  eexists. split; [reflexivity|]. repeat split.
  eexists. split; reflexivity.
Qed.

(** A run of C1 as amended, on the same scenario. *)
Lemma flush_hands_over_queue_and_arrivals_witness :
  let me := {| Message.frequency := 60; Message.producer := [true];
               Message.topic_name := Py.py "metadata";
               Message._messages := ["a"%string] |} in
  Message._messages me <> []
  /\ exists fuel s1 k,
       Message.listen_pass Doubles.scripted_produce Doubles.scripted_poll fuel
         [["b"%string]] (Message.start me)
       = Some (s1, skipn k [["b"%string]])
       /\ Message.at_ s1 = Message.IntervalSleep
       /\ k = Message.backoffs (Message.calls s1)
       /\ Message.attempted (Message.calls s1)
          = Message._messages me ++ List.concat (firstn k [["b"%string]])
       /\ Message._messages (Message.self s1) = [].
Proof.
  intros me. split; [discriminate|].
  apply (flush_hands_over_queue_and_arrivals Doubles.scripted_produce
           Doubles.scripted_poll scripted_only_buffer_error me
           [["b"%string]]).
  discriminate.
Defined.

(** C2.  What the loop does at two inputs, and why.
    - The queue holds ["a"] then ["b"], and the client's buffer is full once
      and free afterwards.  ["a"] is offered once, the task polls, sleeps
      five seconds and moves on: ["a"] is never offered again and only
      ["b"] is delivered.
    - The queue holds ["a"] and the buffer is always full.  ["a"] is given
      up after a single attempt and a single sleep, not after ten.
    - Whatever the client, the queue and the count of attempts, a task that
      wakes up from its back-off sleep goes to the next message of the
      queue: it never comes back to the test [produce_attempts < 10]. *)
Theorem full_buffer_drops_message_after_one_attempt :
  let topic := Py.py "metadata" in
  let run := Message.listen_pass Doubles.scripted_produce
               Doubles.scripted_poll in
  (exists s1,
     run 20%nat []
       (Message.start {| Message.frequency := 60;
                         Message.producer := [true];
                         Message.topic_name := topic;
                         Message._messages := ["a"%string; "b"%string] |})
     = Some (s1, [])
     /\ Message.calls s1
        = [Message.Produce topic "a"%string (Py.Raise Py.BufferError);
           Message.Poll 1; Message.Sleep 5;
           Message.Produce topic "b"%string (Py.Return tt);
           Message.Sleep 60]
     /\ Message.delivered (Message.calls s1) = ["b"%string])
  /\ (exists s1,
        run 20%nat []
          (Message.start {| Message.frequency := 60;
                            Message.producer := repeat true 10;
                            Message.topic_name := topic;
                            Message._messages := ["a"%string] |})
        = Some (s1, [])
        /\ Message.calls s1
           = [Message.Produce topic "a"%string (Py.Raise Py.BufferError);
              Message.Poll 1; Message.Sleep 5; Message.Sleep 60]
        /\ Message.delivered (Message.calls s1) = [])
  /\ (forall (P : Type) (produce : P -> Py.str -> Py.bytes ->
                                  Py.result unit * P)
             (poll : P -> Z -> P) (me : Message.AsyncProducer P)
             (done : list Message.call) (i : nat) (msg : Py.bytes)
             (produce_attempts : Z),
        Message.at_
          (Message.listen_step produce poll
             {| Message.self := me;
                Message.at_ := Message.BackoffSleep i msg produce_attempts;
                Message.calls := done |})
        = Message.ForNext (S i)).
Proof.
  intros topic run. split; [|split].
  - eexists. split; [reflexivity|]. split; reflexivity.
  - eexists. split; [reflexivity|]. split; reflexivity.
  - intros. reflexivity.
Qed.

(* ================================================================== *)
(** ** More on [enqueue_message] and [parse_message] *)
(* ================================================================== *)

Lemma set_messages_same {P} (self : Message.AsyncProducer P) :
  Message.set_messages self (Message._messages self) = self.
Proof. destruct self. reflexivity. Qed.

(** [enqueue_message] in one line: it returns the publisher with what
    [queued] says added at the back of the queue. *)
Lemma enqueue_message_as_queued {P} (self : Message.AsyncProducer P)
    (msg : Py.dict) :
  Message.enqueue_message self msg
  = Py.Return (Message.set_messages self
                 (Message._messages self ++ Message.queued msg)).
Proof.
  unfold Message.queued.
  destruct (Py.json_dumps (Py.PyDict msg)) as [text|e] eqn:E.
  - rewrite (proj1 (enqueue_message_queues self msg text E)). reflexivity.
  - rewrite (enqueue_message_drops self msg e E), app_nil_r,
      set_messages_same. reflexivity.
Qed.

Lemma queued_wire_format (msg : Py.dict) (b : Py.bytes) :
  In b (Message.queued msg) -> Message.wire_format msg b.
Proof.
  unfold Message.queued.
  destruct (Py.json_dumps (Py.PyDict msg)) as [text|e] eqn:E; [|intros []].
  intros [<-|[]].
  apply (proj2 (enqueue_message_queues (Message.new tt [] 0) msg text E)).
Qed.

(** X1.  [enqueue_message] ends the way [json.dumps] ends on the dict.
    When [json.dumps] returns a text, one message is added at the back of
    the queue, the UTF-8 bytes of that text, which always exist since the
    text is ASCII; the client, the topic, the frequency and the messages
    already queued are left as they are.  A [TypeError] of [json.dumps] is
    absorbed and the publisher left as it was.  Any other exception of
    [json.dumps] leaves [enqueue_message]. *)
Theorem enqueue_message_follows_json_dumps
    (P : Type) (self : Message.AsyncProducer P) (msg : Py.dict) :
  match Py.json_dumps (Py.PyDict msg) with
  | Py.Return text =>
      Message.enqueue_message self msg
      = Py.Return {| Message.frequency := Message.frequency self;
                     Message.producer := Message.producer self;
                     Message.topic_name := Message.topic_name self;
                     Message._messages :=
                       Message._messages self ++ [Py.of_octets text] |}
      /\ Message.wire_format msg (Py.of_octets text)
  | Py.Raise Py.TypeError => Message.enqueue_message self msg = Py.Return self
  | Py.Raise e => Message.enqueue_message self msg = Py.Raise e
  end.
Proof.
  destruct (Py.json_dumps (Py.PyDict msg)) as [text|e] eqn:E.
  - exact (enqueue_message_queues self msg text E).
  - unfold Message.enqueue_message. rewrite E. destruct e; reflexivity.
Qed.

(** Calls to [enqueue_message] made one after another keep the order of
    the calls. *)
Lemma enqueue_each_as_queued
    {P : Type} (msgs : list Py.dict) (self : Message.AsyncProducer P) :
  Message.enqueue_each self msgs
  = Py.Return (Message.set_messages self
                 (Message._messages self ++ flat_map Message.queued msgs)).
Proof.
  revert self. induction msgs as [|msg msgs IH]; intros self; cbn.
  - rewrite app_nil_r, set_messages_same. reflexivity.
  - rewrite enqueue_message_as_queued, IH. cbn. rewrite <- app_assoc.
    reflexivity.
Qed.

(** What [parse_message] does once [json.loads] has answered. *)
Lemma parse_message_of_ascii (json_loads : Py.str -> Py.result Py.pyval)
    (text : Py.str) :
  Py.ascii_only text ->
  Message.parse_message json_loads {| Message.value := Py.of_octets text |}
  = match json_loads text with
    | Py.Return v => Py.Return v
    | Py.Raise Py.JSONDecodeError => Py.Return Py.PyNone
    | Py.Raise e => Py.Raise e
    end.
Proof.
  intros Hascii. unfold Message.parse_message. cbn [Message.value].
  rewrite (proj2 (ascii_text_round_trip text Hascii)). reflexivity.
Qed.

(** X2.  A message this worker queued is always readable by
    [parse_message] as far as UTF-8 goes: [parse_message] hands to
    [json.loads] exactly the JSON text [json.dumps] wrote, so it returns the
    dict back whenever [json.loads] undoes [json.dumps] on that text, and it
    raises only what [json.loads] raises. *)
Theorem parse_message_reads_queued_message
    (json_loads : Py.str -> Py.result Py.pyval) (msg : Py.dict)
    (b : Py.bytes) :
  In b (Message.queued msg) ->
  exists text,
    Py.json_dumps (Py.PyDict msg) = Py.Return text
    /\ Message.parse_message json_loads {| Message.value := b |}
       = match json_loads text with
         | Py.Return v => Py.Return v
         | Py.Raise Py.JSONDecodeError => Py.Return Py.PyNone
         | Py.Raise e => Py.Raise e
         end
    /\ (json_loads text = Py.Return (Py.PyDict msg) ->
        Message.parse_message json_loads {| Message.value := b |}
        = Py.Return (Py.PyDict msg)).
Proof.
  unfold Message.queued.
  destruct (Py.json_dumps (Py.PyDict msg)) as [text|e] eqn:E; [|intros []].
  intros [<-|[]]. exists text.
  pose proof (parse_message_of_ascii json_loads text
                (json_dumps_ascii _ _ E)) as Hparse.
  split; [reflexivity|]. split; [exact Hparse|].
  intros Hloads. rewrite Hparse, Hloads. reflexivity.
Qed.

(** A run of X2: the link-rot notice of ["id-1"], read by a decoder that
    only knows scalars and so reports the text as not being JSON. *)
Lemma parse_message_reads_queued_message_witness :
  exists text,
    Py.json_dumps
      (Py.PyDict [(Py.py "identifier", Py.PyStr (Py.py "id-1"));
                  (Py.py "timestamp", Py.PyStr (Py.py "2020-01-01T00:00:00"))])
    = Py.Return text
    /\ Message.parse_message Doubles.loads_scalar
         {| Message.value := Py.of_octets text |}
       = Py.Return Py.PyNone.
Proof.
  destruct (parse_message_reads_queued_message Doubles.loads_scalar
              [(Py.py "identifier", Py.PyStr (Py.py "id-1"));
               (Py.py "timestamp", Py.PyStr (Py.py "2020-01-01T00:00:00"))]
              (hd EmptyString
                 (Message.queued
                    [(Py.py "identifier", Py.PyStr (Py.py "id-1"));
                     (Py.py "timestamp",
                      Py.PyStr (Py.py "2020-01-01T00:00:00"))])))
    as (text & Htext & Hparse & _); [left; reflexivity|].
  exists text. split; [exact Htext|].
  cbn in Htext. injection Htext as <-. exact Hparse.
Defined.

(* ================================================================== *)
(** ** More on the flush loop *)
(* ================================================================== *)

Lemma delivered_app (a b : list Message.call) :
  Message.delivered (a ++ b) = Message.delivered a ++ Message.delivered b.
Proof.
  induction a as [|[t m [u|e]|t|t] a IH]; cbn; rewrite ?IH; reflexivity.
Qed.

Lemma polls_app (a b : list Message.call) :
  Message.polls (a ++ b) = (Message.polls a + Message.polls b)%nat.
Proof.
  induction a as [|[t m o|t|t] a IH]; cbn; rewrite ?IH; reflexivity.
Qed.

Lemma slept_app (a b : list Message.call) :
  Message.slept (a ++ b) = Message.slept a + Message.slept b.
Proof.
  induction a as [|[t m o|t|t] a IH]; cbn; rewrite ?IH; lia.
Qed.

Section PassFacts.
Import Py Message.
Context {P : Type}.
Variable produce : P -> str -> bytes -> result unit * P.
Variable poll : P -> Z -> P.

(** What every transfer of control keeps, short of waking up from the
    interval sleep, and every arrival keeps, a pass keeps. *)
Lemma pass_keeps (I : task P -> Prop) :
  (forall s, at_ s <> IntervalSleep -> I s -> I (listen_step produce poll s)) ->
  (forall batch s, I s -> I (arrive batch s)) ->
  forall fuel arrivals s s1 rest,
    listen_pass produce poll fuel arrivals s = Some (s1, rest) ->
    I s -> I s1.
Proof.
  intros Hstep Harrive.
  induction fuel as [|fuel IH]; intros arrivals s s1 rest Hrun Hs;
    [discriminate|].
  cbn [listen_pass] in Hrun.
  destruct (at_ s) eqn:Hat;
    try (injection Hrun as <- <-; exact Hs);
    try (apply (IH _ _ _ _ Hrun); apply Hstep; [congruence | exact Hs]).
  apply (IH _ _ _ _ Hrun). apply Hstep; [cbn; congruence|].
  apply Harrive. exact Hs.
Qed.

Lemma pass_keeps_frequency (fuel : nat) (arrivals : list (list bytes))
    (s s1 : task P) (rest : list (list bytes)) :
  listen_pass produce poll fuel arrivals s = Some (s1, rest) ->
  frequency (self s1) = frequency (self s)
  /\ topic_name (self s1) = topic_name (self s).
Proof.
  intros Hrun.
  apply (pass_keeps (fun t => frequency (self t) = frequency (self s)
                              /\ topic_name (self t) = topic_name (self s)))
    with (fuel := fuel) (arrivals := arrivals) (s := s) (rest := rest);
    [| |exact Hrun|split; reflexivity].
  - intros t _ Ht. unfold listen_step.
    destruct (at_ t); cbn; try exact Ht.
    + destruct (Nat.eqb _ _); exact Ht.
    + destruct (nth_error _ _); exact Ht.
    + destruct (produce_attempts <? 10); [|exact Ht].
      destruct (produce _ _ _) as [[u|[]] p]; exact Ht.
  - intros batch t Ht. exact Ht.
Qed.

(** X5.  An exception of the client other than [BufferError] ends [listen]
    on the spot, wherever the loop stands in the batch: the exception
    leaves the coroutine, no poll or sleep follows, and the queue is left
    whole, the messages already delivered included, since the statement
    that empties it is never reached. *)
Theorem client_error_leaves_queue_whole
    (s : task P) (i : nat) (msg : bytes) (e : exn) (p : P)
    (arrivals : list (list bytes)) :
  at_ s = ForNext i ->
  nth_error (_messages (self s)) i = Some msg ->
  produce (producer (self s)) (topic_name (self s)) msg = (Raise e, p) ->
  e <> BufferError ->
  exists s1,
    listen_pass produce poll 3 arrivals s = Some (s1, arrivals)
    /\ at_ s1 = Raised e
    /\ _messages (self s1) = _messages (self s)
    /\ calls s1
       = calls s ++ [Produce (topic_name (self s)) msg (Raise e)].
Proof.
  intros Hat Hnth Hproduce He.
  exists {| self := set_producer (self s) p;
            at_ := Raised e;
            calls := (calls s ++ [])
                     ++ [Produce (topic_name (self s)) msg (Raise e)] |}.
  split; [|cbn; rewrite app_nil_r; repeat split].
  rewrite (pass_for_next produce poll _ _ _ _ Hat),
    (step_for_next produce poll _ _ _ Hat Hnth).
  rewrite pass_attempts with (i := i) (msg := msg) (n := 0) by reflexivity.
  rewrite step_first_attempt with (i := i) (msg := msg) by reflexivity.
  cbn [self goto calls]. rewrite Hproduce.
  destruct e; try congruence; reflexivity.
Qed.

Hypothesis only_buffer_error :
  forall p topic msg e, fst (produce p topic msg) = Raise e -> e = BufferError.

Ltac books :=
  rewrite ?delivered_app, ?backoffs_app, ?attempted_app, ?polls_app,
    ?slept_app, ?length_app;
  cbn -[Z.mul Z.add Z.of_nat]; repeat split; lia.

(** The books of a pass: every message offered was either taken or refused
    with a full buffer; every refusal was followed by one poll; five seconds
    were slept per refusal, and [self.frequency] once the interval sleep is
    reached. *)

Lemma step_keeps_books (s : task P) :
  at_ s <> IntervalSleep ->
  (List.length (delivered (calls s)) + backoffs (calls s)
   = List.length (attempted (calls s)))%nat
  /\ polls (calls s) = backoffs (calls s)
  /\ slept (calls s)
     = 5 * Z.of_nat (backoffs (calls s))
       + match at_ s with IntervalSleep => frequency (self s) | _ => 0 end ->
  let s' := listen_step produce poll s in
  (List.length (delivered (calls s')) + backoffs (calls s')
   = List.length (attempted (calls s')))%nat
  /\ polls (calls s') = backoffs (calls s')
  /\ slept (calls s')
     = 5 * Z.of_nat (backoffs (calls s'))
       + match at_ s' with IntervalSleep => frequency (self s') | _ => 0 end.
Proof.
  intros Hawake (Hd & Hp & Hs). unfold listen_step.
  destruct (at_ s) eqn:Hat; try congruence; cbn [goto calls at_ self].
  - destruct (Nat.eqb _ _); cbn [goto calls at_ self];
      books.
  - destruct (nth_error _ _); cbn [goto calls at_ self set_messages frequency];
      books.
  - destruct (produce_attempts <? 10);
      [|cbn [goto calls at_ self];
        books].
    destruct (produce (producer (self s)) (topic_name (self s)) msg)
      as [outcome p] eqn:Hproduce.
    destruct outcome as [u|e].
    + cbn [calls at_ self];
        books.
    + assert (He : e = BufferError).
      { apply (only_buffer_error (producer (self s)) (topic_name (self s))
                 msg). rewrite Hproduce. reflexivity. }
      subst e. cbn [calls at_ self];
        books.
  - books.
  - repeat split; try assumption. rewrite Hat. exact Hs.
Qed.

(** A pass from the top of the loop, whatever the queue holds. *)
Lemma pass_from_loop_head (s : task P) (arrivals : list (list bytes)) :
  at_ s = LoopHead ->
  exists fuel s1 k,
    listen_pass produce poll fuel arrivals s = Some (s1, skipn k arrivals)
    /\ at_ s1 = IntervalSleep
    /\ _messages (self s1) = []
    /\ attempted (calls s1)
       = attempted (calls s) ++ _messages (self s)
           ++ List.concat (firstn k arrivals)
    /\ backoffs (calls s1) = (backoffs (calls s) + k)%nat.
Proof.
  intros Hat.
  destruct (_messages (self s)) as [|m q] eqn:Hq.
  - exists 2%nat, (listen_step produce poll s), 0%nat.
    cbn [listen_pass]. rewrite Hat. unfold listen_step. rewrite Hat, Hq.
    cbn. rewrite attempted_app, backoffs_app, Hq. cbn.
    rewrite !app_nil_r. repeat split; lia.
  - destruct (for_loop_finishes produce poll only_buffer_error
                (List.length (_messages (self s))
                 + List.length (List.concat arrivals))
                (goto s (ForNext 0) []) 0 arrivals eq_refl)
      as (fuel & s1 & k & Hrun & H1 & H2 & H3 & H4); [cbn; lia|].
    exists (S fuel), s1, k.
    split; [|split; [exact H1 | split; [exact H2 | split]]].
    + cbn [listen_pass]. rewrite Hat. unfold listen_step. rewrite Hat, Hq.
      cbn [List.length Nat.eqb]. exact Hrun.
    + rewrite H3. cbn [goto calls self skipn]. rewrite app_nil_r, Hq.
      reflexivity.
    + rewrite H4. cbn [goto calls]. rewrite app_nil_r. reflexivity.
Qed.

(** X3.  One pass of the run loop, for a client that signals nothing but
    a full buffer.  The pass reaches its interval sleep having offered the
    client every message of the queue, then every message that arrived
    during its back-off sleeps, each exactly once and in that order: a
    message that was refused is not offered again.  Every message offered
    was either taken or refused; each refusal was followed by exactly one
    [poll]; and the pass slept five seconds per refusal, then
    [self.frequency] seconds, and no more. *)
Theorem pass_offers_once_and_sleeps_per_refusal
    (me : AsyncProducer P) (arrivals : list (list bytes)) :
  exists fuel s1 k,
    listen_pass produce poll fuel arrivals (start me)
    = Some (s1, skipn k arrivals)
    /\ at_ s1 = IntervalSleep
    /\ attempted (calls s1) = _messages me ++ List.concat (firstn k arrivals)
    /\ k = backoffs (calls s1)
    /\ (List.length (delivered (calls s1)) + backoffs (calls s1)
        = List.length (attempted (calls s1)))%nat
    /\ polls (calls s1) = backoffs (calls s1)
    /\ slept (calls s1)
       = 5 * Z.of_nat (backoffs (calls s1)) + frequency me.
Proof.
  destruct (pass_from_loop_head (start me) arrivals eq_refl)
    as (fuel & s1 & k & Hrun & Hat & _ & Hatt & Hback).
  exists fuel, s1, k. split; [exact Hrun|].
  split; [exact Hat|]. split; [exact Hatt|].
  split; [rewrite Hback; reflexivity|].
  pose proof (pass_keeps
                (fun s =>
                   (List.length (delivered (calls s)) + backoffs (calls s)
                    = List.length (attempted (calls s)))%nat
                   /\ polls (calls s) = backoffs (calls s)
                   /\ slept (calls s)
                      = 5 * Z.of_nat (backoffs (calls s))
                        + match at_ s with
                          | IntervalSleep => frequency (self s)
                          | _ => 0
                          end)
                step_keeps_books (fun _ _ H => H)
                fuel arrivals (start me) s1 (skipn k arrivals) Hrun)
    as Hbooks.
  cbn beta in Hbooks.
  destruct Hbooks as (Hd & Hp & Hs); [cbn; repeat split; lia|].
  rewrite Hat in Hs.
  rewrite (proj1 (pass_keeps_frequency _ _ _ _ _ Hrun)) in Hs.
  repeat split; assumption.
Qed.

(** X4.  With a client that raises nothing but [BufferError], what
    reaches the queue while [listen] is in its interval sleep is sent in
    the next pass: woken up, the task offers the client what the
    queue held, then what arrived during the sleep, then what arrives
    during the back-off sleeps of the pass, each once and in that order;
    nothing offered in an earlier pass is offered again, and the pass ends
    with the queue empty. *)
Theorem next_pass_sends_interval_arrivals
    (s : task P) (batch : list bytes) (arrivals : list (list bytes)) :
  at_ s = IntervalSleep ->
  exists fuel s1 k,
    listen_pass produce poll fuel arrivals
      (listen_step produce poll (arrive batch s))
    = Some (s1, skipn k arrivals)
    /\ at_ s1 = IntervalSleep
    /\ attempted (calls s1)
       = attempted (calls s) ++ (_messages (self s) ++ batch)
           ++ List.concat (firstn k arrivals)
    /\ _messages (self s1) = [].
Proof.
  intros Hat.
  assert (Hwake : listen_step produce poll (arrive batch s)
                  = goto (arrive batch s) LoopHead []).
  { unfold listen_step. cbn [arrive at_]. rewrite Hat. reflexivity. }
  destruct (pass_from_loop_head (goto (arrive batch s) LoopHead [])
              arrivals eq_refl)
    as (fuel & s1 & k & Hrun & H1 & H2 & H3 & _).
  exists fuel, s1, k. rewrite Hwake.
  split; [exact Hrun|]. split; [exact H1|]. split; [|exact H2].
  rewrite H3. cbn [goto arrive calls self set_messages _messages].
  rewrite app_nil_r. reflexivity.
Qed.

End PassFacts.

Section AcceptingClient.
Import Py Message.
Context {P : Type}.
Variable produce : P -> str -> bytes -> result unit * P.
Variable poll : P -> Z -> P.

(** The client takes every message. *)
Hypothesis accepts : forall p topic msg, fst (produce p topic msg) = Return tt.

Lemma accepts_only_buffer_error (p : P) (topic : str) (msg : bytes)
    (e : exn) :
  fst (produce p topic msg) = Raise e -> e = BufferError.
Proof. rewrite accepts. discriminate. Qed.

Lemma step_keeps_all_taken (s : task P) :
  at_ s <> IntervalSleep ->
  delivered (calls s) = attempted (calls s) /\ backoffs (calls s) = 0%nat ->
  delivered (calls (listen_step produce poll s))
  = attempted (calls (listen_step produce poll s))
  /\ backoffs (calls (listen_step produce poll s)) = 0%nat.
Proof.
  intros _ (Hd & Hb). unfold listen_step.
  destruct (at_ s); cbn [goto calls];
    try (rewrite delivered_app, attempted_app, backoffs_app, Hd, Hb;
         split; reflexivity);
    try (split; assumption).
  - destruct (Nat.eqb _ _); cbn [goto calls];
      rewrite delivered_app, attempted_app, backoffs_app, Hd, Hb;
      split; reflexivity.
  - destruct (nth_error _ _); cbn [goto calls];
      rewrite delivered_app, attempted_app, backoffs_app, Hd, Hb;
      split; reflexivity.
  - destruct (produce_attempts <? 10); cbn [goto calls];
      [|rewrite delivered_app, attempted_app, backoffs_app, Hd, Hb;
        split; reflexivity].
    pose proof (accepts (producer (self s)) (topic_name (self s)) msg) as Ha.
    destruct (produce (producer (self s)) (topic_name (self s)) msg)
      as [outcome p]. cbn in Ha. subst outcome. cbn [calls].
    rewrite delivered_app, attempted_app, backoffs_app, Hd, Hb.
    split; reflexivity.
Qed.

(** X6.  Events enqueued and then flushed to a client that takes every
    message reach it all, once each and in enqueue order.  After any run of
    calls to [enqueue_message], a pass of the run loop delivers what the
    queue held followed by what each call queued, in the order of the
    calls (a dict that cannot be written as JSON queues nothing); the client
    is never polled, the only sleep is the interval sleep, and the queue is
    empty afterwards. *)
Theorem enqueued_events_reach_client_in_order
    (me : AsyncProducer P) (msgs : list dict)
    (arrivals : list (list bytes)) :
  exists me' fuel s1,
    enqueue_each me msgs = Return me'
    /\ listen_pass produce poll fuel arrivals (start me')
       = Some (s1, arrivals)
    /\ at_ s1 = IntervalSleep
    /\ delivered (calls s1) = _messages me ++ flat_map queued msgs
    /\ polls (calls s1) = 0%nat
    /\ slept (calls s1) = frequency me
    /\ _messages (self s1) = [].
Proof.
  exists (set_messages me (_messages me ++ flat_map queued msgs)).
  set (me' := set_messages me (_messages me ++ flat_map queued msgs)).
  destruct (pass_from_loop_head produce poll accepts_only_buffer_error
              (start me') arrivals eq_refl)
    as (fuel & s1 & k & Hrun & Hat & Hempty & Hatt & Hback).
  pose proof (pass_keeps produce poll
                (fun s => delivered (calls s) = attempted (calls s)
                          /\ backoffs (calls s) = 0%nat)
                step_keeps_all_taken (fun _ _ H => H)
                fuel arrivals (start me') s1 (skipn k arrivals) Hrun
                (conj eq_refl eq_refl)) as (Hd & Hb).
  pose proof (pass_keeps produce poll
                (fun s =>
                   (List.length (delivered (calls s)) + backoffs (calls s)
                    = List.length (attempted (calls s)))%nat
                   /\ polls (calls s) = backoffs (calls s)
                   /\ slept (calls s)
                      = 5 * Z.of_nat (backoffs (calls s))
                        + match at_ s with
                          | IntervalSleep => frequency (self s)
                          | _ => 0
                          end)
                (step_keeps_books produce poll accepts_only_buffer_error)
                (fun _ _ H => H)
                fuel arrivals (start me') s1 (skipn k arrivals) Hrun)
    as Hbooks.
  cbn beta in Hbooks.
  destruct Hbooks as (_ & Hp & Hs); [cbn; repeat split; lia|].
  assert (Hk : k = 0%nat) by (cbn in Hback; lia). subst k.
  exists fuel, s1.
  split; [apply enqueue_each_as_queued|].
  split; [exact Hrun|]. split; [exact Hat|].
  split; [rewrite Hd, Hatt; cbn; rewrite app_nil_r; reflexivity|].
  split; [lia|]. split; [|exact Hempty].
  rewrite Hs, Hb, Hat.
  rewrite (proj1 (pass_keeps_frequency produce poll _ _ _ _ _ Hrun)).
  cbn. lia.
Qed.

End AcceptingClient.

(** A run of X3: the buffer is full once, for ["a"]. *)
Lemma pass_offers_once_and_sleeps_per_refusal_witness :
  exists fuel s1 k,
    Message.listen_pass Doubles.scripted_produce Doubles.scripted_poll fuel []
      (Message.start {| Message.frequency := 60;
                        Message.producer := [true];
                        Message.topic_name := Py.py "metadata";
                        Message._messages := ["a"%string; "b"%string] |})
    = Some (s1, skipn k [])
    /\ Message.at_ s1 = Message.IntervalSleep
    /\ Message.attempted (Message.calls s1)
       = ["a"%string; "b"%string] ++ List.concat (firstn k [])
    /\ k = Message.backoffs (Message.calls s1)
    /\ (List.length (Message.delivered (Message.calls s1))
        + Message.backoffs (Message.calls s1)
        = List.length (Message.attempted (Message.calls s1)))%nat
    /\ Message.polls (Message.calls s1) = Message.backoffs (Message.calls s1)
    /\ Message.slept (Message.calls s1)
       = 5 * Z.of_nat (Message.backoffs (Message.calls s1)) + 60.
Proof.
  apply (pass_offers_once_and_sleeps_per_refusal Doubles.scripted_produce
           Doubles.scripted_poll scripted_only_buffer_error
           {| Message.frequency := 60;
              Message.producer := [true];
              Message.topic_name := Py.py "metadata";
              Message._messages := ["a"%string; "b"%string] |} []).
Defined.

(** A run of X4: ["c"] arrives while the task sleeps between two passes. *)
Lemma next_pass_sends_interval_arrivals_witness :
  exists fuel s1 k,
    Message.listen_pass Doubles.scripted_produce Doubles.scripted_poll fuel []
      (Message.listen_step Doubles.scripted_produce Doubles.scripted_poll
         (Message.arrive ["c"%string]
            {| Message.self :=
                 {| Message.frequency := 60;
                    Message.producer := [];
                    Message.topic_name := Py.py "metadata";
                    Message._messages := [] |};
               Message.at_ := Message.IntervalSleep;
               Message.calls :=
                 [Message.Produce (Py.py "metadata") "a"%string
                    (Py.Return tt);
                  Message.Sleep 60] |}))
    = Some (s1, skipn k [])
    /\ Message.at_ s1 = Message.IntervalSleep
    /\ Message.attempted (Message.calls s1)
       = ["a"%string] ++ ([] ++ ["c"%string]) ++ List.concat (firstn k [])
    /\ Message._messages (Message.self s1) = [].
Proof.
  apply (next_pass_sends_interval_arrivals Doubles.scripted_produce
           Doubles.scripted_poll scripted_only_buffer_error
           {| Message.self :=
                {| Message.frequency := 60;
                   Message.producer := [];
                   Message.topic_name := Py.py "metadata";
                   Message._messages := [] |};
              Message.at_ := Message.IntervalSleep;
              Message.calls :=
                [Message.Produce (Py.py "metadata") "a"%string (Py.Return tt);
                 Message.Sleep 60] |}
           ["c"%string] []).
  reflexivity.
Defined.

(** A run of X5: the client is out of order at the second message. *)
Lemma client_error_leaves_queue_whole_witness :
  exists s1,
    Message.listen_pass Doubles.broken_produce Doubles.idle_poll 3 []
      {| Message.self :=
           {| Message.frequency := 60;
              Message.producer := tt;
              Message.topic_name := Py.py "metadata";
              Message._messages := ["a"%string; "b"%string] |};
         Message.at_ := Message.ForNext 1;
         Message.calls :=
           [Message.Produce (Py.py "metadata") "a"%string (Py.Return tt)] |}
    = Some (s1, [])
    /\ Message.at_ s1
       = Message.Raised (Py.OtherException "KafkaException")
    /\ Message._messages (Message.self s1) = ["a"%string; "b"%string]
    /\ Message.calls s1
       = [Message.Produce (Py.py "metadata") "a"%string (Py.Return tt)]
           ++ [Message.Produce (Py.py "metadata") "b"%string
                 (Py.Raise (Py.OtherException "KafkaException"))].
Proof.
  apply (client_error_leaves_queue_whole Doubles.broken_produce
           Doubles.idle_poll
           {| Message.self :=
                {| Message.frequency := 60;
                   Message.producer := tt;
                   Message.topic_name := Py.py "metadata";
                   Message._messages := ["a"%string; "b"%string] |};
              Message.at_ := Message.ForNext 1;
              Message.calls :=
                [Message.Produce (Py.py "metadata") "a"%string
                   (Py.Return tt)] |}
           1%nat "b"%string (Py.OtherException "KafkaException") tt []);
    [reflexivity | reflexivity | reflexivity | discriminate].
Defined.

(** A run of X6: two notices, then a dict that cannot be written, then a
    flush to a client that takes everything. *)
Lemma enqueued_events_reach_client_in_order_witness :
  exists me' fuel s1,
    Message.enqueue_each (Message.new [] (Py.py "metadata") 60)
      [[(Py.py "identifier", Py.PyStr (Py.py "id-1"))];
       [(Py.py "identifier", Py.PyStr (Py.py "id-2"))];
       [(Py.py "exif", Py.PyBytes "II"%string)]]
    = Py.Return me'
    /\ Message.listen_pass Doubles.fake_produce Doubles.fake_poll
         fuel [] (Message.start me')
       = Some (s1, [])
    /\ Message.at_ s1 = Message.IntervalSleep
    /\ Message.delivered (Message.calls s1)
       = [] ++ flat_map Message.queued
                 [[(Py.py "identifier", Py.PyStr (Py.py "id-1"))];
                  [(Py.py "identifier", Py.PyStr (Py.py "id-2"))];
                  [(Py.py "exif", Py.PyBytes "II"%string)]]
    /\ Message.polls (Message.calls s1) = 0%nat
    /\ Message.slept (Message.calls s1) = 60
    /\ Message._messages (Message.self s1) = [].
Proof.
  apply (enqueued_events_reach_client_in_order Doubles.fake_produce
           Doubles.fake_poll (fun _ _ _ => eq_refl)
           (Message.new [] (Py.py "metadata") 60)).
Defined.

(* ================================================================== *)
(** ** More on the EXIF update *)
(* ================================================================== *)

Lemma py_inj (a b : string) : Py.py a = Py.py b -> a = b.
Proof.
  unfold Py.py. intros H.
  rewrite <- (string_of_list_ascii_of_string a),
    <- (string_of_list_ascii_of_string b).
  f_equal.
  revert H. generalize (list_ascii_of_string a), (list_ascii_of_string b).
  induction l as [|x l IH]; intros [|y l']; cbn; intros H;
    try discriminate; [reflexivity|].
  injection H as Hxy Hl. f_equal; [|apply IH; exact Hl].
  rewrite <- (ascii_N_embedding x), <- (ascii_N_embedding y), Hxy.
  reflexivity.
Qed.

Lemma to_hex_uint_not_nil (n : N) : N.to_hex_uint n <> Hexadecimal.Nil.
Proof.
  intros H. pose proof (HexadecimalN.Unsigned.of_to n) as Hn.
  rewrite H in Hn. cbn in Hn. subst n. discriminate H.
Qed.

(** [hex] tells integers apart. *)
Lemma hex_inj (a b : Z) : Py.hex a = Py.hex b -> a = b.
Proof.
  unfold Py.hex. intros H.
  assert (Hdigits : forall m n,
            Py.py (HexadecimalString.NilZero.string_of_uint
                     (N.to_hex_uint m))
            = Py.py (HexadecimalString.NilZero.string_of_uint
                       (N.to_hex_uint n)) -> m = n).
  { intros m n Hmn. apply py_inj in Hmn.
    apply HexadecimalN.Unsigned.to_uint_inj.
    assert (Hsome : Some (N.to_hex_uint m) = Some (N.to_hex_uint n)).
    { rewrite <- (HexadecimalString.NilZero.usu _ (to_hex_uint_not_nil m)),
        <- (HexadecimalString.NilZero.usu _ (to_hex_uint_not_nil n)), Hmn.
      reflexivity. }
    injection Hsome as Hsome. exact Hsome. }
  destruct (Z.ltb_spec a 0) as [Ha|Ha]; destruct (Z.ltb_spec b 0) as [Hb|Hb];
    cbn in H; try discriminate.
  - injection H as H. apply Hdigits in H. lia.
  - injection H as H. apply Hdigits in H. lia.
Qed.

Lemma dict_set_fresh (d : Py.dict) (k : Py.str) (v : Py.pyval) :
  ~ In k (Py.keys d) -> Py.dict_set d k v = d ++ [(k, v)].
Proof.
  induction d as [|[k' v'] d IH]; cbn; intros Hk; [reflexivity|].
  destruct (Py.str_eqb k' k) eqn:E.
  - apply str_eqb_eq in E. tauto.
  - rewrite IH by tauto. reflexivity.
Qed.

Lemma dict_of_from (items acc : list (Py.str * Py.pyval)) :
  NoDup (Py.keys acc ++ Py.keys items) ->
  fold_left (fun d kv => Py.dict_set d (fst kv) (snd kv)) items acc
  = acc ++ items.
Proof.
  revert acc. induction items as [|[k v] items IH]; intros acc Hnodup; cbn.
  - rewrite app_nil_r. reflexivity.
  - cbn in Hnodup.
    rewrite dict_set_fresh.
    + rewrite IH.
      * rewrite <- app_assoc. reflexivity.
      * unfold Py.keys in *. rewrite map_app. cbn. rewrite <- app_assoc.
        exact Hnodup.
    + apply NoDup_remove_2 in Hnodup. intros Hin. apply Hnodup.
      apply in_or_app. left. exact Hin.
Qed.

(** A dict display with distinct keys holds its items as written. *)
Lemma dict_of_distinct (items : list (Py.str * Py.pyval)) :
  NoDup (Py.keys items) -> Py.dict_of items = items.
Proof. intros H. unfold Py.dict_of. rewrite dict_of_from; auto. Qed.

Lemma dict_set_not_empty (d : Py.dict) (k : Py.str) (v : Py.pyval) :
  Py.dict_set d k v <> [].
Proof. destruct d as [|[k' v'] d]; cbn; [|destruct (Py.str_eqb k' k)]; discriminate. Qed.

Lemma dict_of_empty (items : list (Py.str * Py.pyval)) :
  Py.dict_of items = [] <-> items = [].
Proof.
  split; [|intros ->; reflexivity].
  unfold Py.dict_of. destruct items as [|[k v] items]; [reflexivity|].
  cbn. intros H. exfalso. revert H.
  assert (Hacc : forall l acc,
            acc <> [] ->
            fold_left (fun d kv => Py.dict_set d (fst kv) (snd kv)) l acc
            <> []).
  { induction l as [|kv l IH]; intros acc Hne; cbn; [exact Hne|].
    apply IH. apply dict_set_not_empty. }
  apply Hacc. discriminate.
Qed.

Lemma in_info (key : Py.str) (keys : list Py.str) :
  existsb (Py.str_eqb key) keys = true <-> In key keys.
Proof.
  rewrite existsb_exists. split.
  - intros (x & Hx & E). apply str_eqb_eq in E. subst x. exact Hx.
  - intros H. exists key. split; [exact H | apply str_eqb_eq; reflexivity].
Qed.

(** The EXIF dict built by the comprehension [{hex(k): v for k, v in ...}],
    for tags that are pairwise distinct. *)
Lemma exif_dict_of_distinct_tags (tags : list (Z * Py.pyval)) :
  NoDup (map fst tags) ->
  Py.dict_of (map (fun kv => (Py.hex (fst kv), snd kv)) tags)
  = map (fun kv => (Py.hex (fst kv), snd kv)) tags.
Proof.
  intros Hnodup. apply dict_of_distinct.
  unfold Py.keys. rewrite map_map. cbn [fst].
  rewrite <- (map_map fst Py.hex).
  apply Finite.Injective_map_NoDup; [|exact Hnodup].
  intros a b. apply hex_inj.
Qed.

Lemma each_returns_when {A B} (f : A -> Py.result B) (l : list A) :
  (forall x, In x l -> exists y, f x = Py.Return y) ->
  exists ys, Py.each f l = Py.Return ys.
Proof.
  induction l as [|x l IH]; cbn; intros Hall; [eauto|].
  destruct (Hall x (or_introl eq_refl)) as [y ->].
  destruct IH as [ys ->]; [intros x' Hx'; apply Hall; right; exact Hx'|].
  eauto.
Qed.

(** A dict whose values [json.dumps] can write can be written. *)
Lemma json_dumps_dict_returns (items : Py.dict) :
  (forall k v, In (k, v) items ->
               exists text, Py.json_dumps v = Py.Return text) ->
  exists text, Py.json_dumps (Py.PyDict items) = Py.Return text.
Proof.
  intros Hall. cbn.
  match goal with
  | |- exists _, match Py.each ?f items with _ => _ end = _ =>
      destruct (each_returns_when f items) as [parts ->]; [|eauto]
  end.
  intros [k v] Hin. cbn [fst snd].
  destruct (Hall k v Hin) as [text ->]. eauto.
Qed.

Lemma append_grows {P} (q : Message.AsyncProducer P) (b : Py.bytes) :
  Message.append q b <> q.
Proof.
  intros H. apply (f_equal (fun x => List.length (Message._messages x))) in H.
  cbn in H. rewrite length_app in H. cbn in H. lia.
Qed.

(** X7.  When the picture has an [exif] entry in its info and at least one
    EXIF tag, [notify_exif] of [worker/image.py] hands the sink one update
    that lists every tag of the picture once, in the picture's order, each
    under the [hex] form of its number with its value untouched; and
    [notify_exif] of [worker/message.py], when [json.dumps] can write every
    value, adds exactly one message to the queue, the UTF-8 JSON of the
    dict made of the identifier and of that same listing.  ([img.getexif()]
    is a dict, so its tags are pairwise distinct.) *)
Theorem exif_update_lists_every_tag
    (P : Type) (q : Message.AsyncProducer P) (mp : ImagePy.MetadataProducer)
    (img : Lib.Image) (identifier : Py.str) :
  In (Py.py "exif") (Lib.info img) ->
  Lib.getexif img <> [] ->
  NoDup (map fst (Lib.getexif img)) ->
  let exif := map (fun kv => (Py.hex (fst kv), snd kv)) (Lib.getexif img) in
  ImagePy.notify_exif img identifier mp
  = ([ImagePy.ExifUpdate identifier exif],
     ImagePy.notify_exif_update mp identifier exif)
  /\ ((forall tag v, In (tag, v) (Lib.getexif img) ->
                     exists text, Py.json_dumps v = Py.Return text) ->
      exists b,
        Message.notify_exif img identifier q
        = Py.Return (Message.append q b)
        /\ Message.wire_format
             [(Py.py "identifier", Py.PyStr identifier);
              (Py.py "exif", Py.PyDict exif)] b)
  /\ NoDup (Py.keys exif).
Proof.
  intros Hinfo Htags Hnodup exif.
  apply in_info in Hinfo.
  unfold ImagePy.notify_exif, Message.notify_exif.
  rewrite Hinfo, (exif_dict_of_distinct_tags _ Hnodup). fold exif.
  assert (Hkeys : NoDup (Py.keys exif)).
  { subst exif. unfold Py.keys. rewrite map_map. cbn [fst].
    rewrite <- (map_map fst Py.hex).
    apply Finite.Injective_map_NoDup; [|exact Hnodup].
    intros a b. apply hex_inj. }
  assert (Hwritable :
            (forall tag v, In (tag, v) (Lib.getexif img) ->
                           exists text, Py.json_dumps v = Py.Return text) ->
            exists text,
              Py.json_dumps
                (Py.PyDict [(Py.py "identifier", Py.PyStr identifier);
                            (Py.py "exif", Py.PyDict exif)])
              = Py.Return text).
  { intros Hvalues. apply json_dumps_dict_returns.
    intros k v [H|[H|[]]]; injection H as <- <-; [cbn; eauto|].
    apply json_dumps_dict_returns. intros k v Hin. subst exif.
    apply in_map_iff in Hin. destruct Hin as ([tag v'] & H & Hin).
    injection H as <- <-. apply (Hvalues tag v' Hin). }
  destruct exif as [|kv rest] eqn:Hexif.
  - subst exif. destruct (Lib.getexif img); [congruence | discriminate].
  - split; [reflexivity|]. split; [|exact Hkeys].
    intros Hvalues. destruct (Hwritable Hvalues) as [text Htext].
    exists (Py.of_octets text).
    apply (enqueue_message_queues q _ text Htext).
Qed.

(** A run of X7: the picture with the Artist tag 0x13b. *)
Lemma exif_update_lists_every_tag_witness :
  ImagePy.notify_exif Doubles.landscape (Py.py "id-1") Doubles.quiet_sink
  = ([ImagePy.ExifUpdate (Py.py "id-1")
        [(Py.py "0x13b", Py.PyStr (Py.py "unknown"))]],
     Py.Return tt)
  /\ exists b,
       Message.notify_exif Doubles.landscape (Py.py "id-1")
         (Message.new tt (Py.py "metadata") 60)
       = Py.Return (Message.append (Message.new tt (Py.py "metadata") 60) b)
       /\ Message.wire_format
            [(Py.py "identifier", Py.PyStr (Py.py "id-1"));
             (Py.py "exif",
              Py.PyDict [(Py.py "0x13b", Py.PyStr (Py.py "unknown"))])] b.
Proof.
  destruct (exif_update_lists_every_tag unit
              (Message.new tt (Py.py "metadata") 60) Doubles.quiet_sink
              Doubles.landscape (Py.py "id-1"))
    as (Hsink & Hqueue & _).
  - left. reflexivity.
  - discriminate.
  - repeat constructor. intros [].
  - split; [exact Hsink|]. apply Hqueue.
    intros tag v [H|[]]. injection H as <- <-. cbn. eauto.
Defined.

(** X8.  No update without tags.  When the picture's info has no [exif]
    entry, or its EXIF data holds no tag, neither version of [notify_exif]
    emits anything, and the publisher's queue is left as it is.  With an
    [exif] entry and at least one tag, [notify_exif] of [worker/image.py]
    always hands the sink one update, whose dict is not empty.  And
    [notify_exif] of [worker/message.py] adds a message to the queue only
    for a picture with an [exif] entry and at least one tag. *)
Theorem exif_update_only_with_tags
    (P : Type) (q : Message.AsyncProducer P) (mp : ImagePy.MetadataProducer)
    (img : Lib.Image) (identifier : Py.str) :
  (~ In (Py.py "exif") (Lib.info img) \/ Lib.getexif img = [] ->
   ImagePy.notify_exif img identifier mp = ([], Py.Return tt)
   /\ Message.notify_exif img identifier q = Py.Return q)
  /\ (In (Py.py "exif") (Lib.info img) /\ Lib.getexif img <> [] ->
      exists exif,
        exif <> []
        /\ fst (ImagePy.notify_exif img identifier mp)
           = [ImagePy.ExifUpdate identifier exif])
  /\ (forall b,
        Message.notify_exif img identifier q
        = Py.Return (Message.append q b) ->
        In (Py.py "exif") (Lib.info img) /\ Lib.getexif img <> []).
Proof.
  assert (Hnone : ~ In (Py.py "exif") (Lib.info img) \/ Lib.getexif img = [] ->
                  ImagePy.notify_exif img identifier mp = ([], Py.Return tt)
                  /\ Message.notify_exif img identifier q = Py.Return q).
  { unfold ImagePy.notify_exif, Message.notify_exif. intros [Hinfo|Htags].
    - destruct (existsb _ _) eqn:E; [|split; reflexivity].
      apply in_info in E. tauto.
    - rewrite Htags. destruct (existsb _ _); split; reflexivity. }
  split; [exact Hnone|]. split.
  - unfold ImagePy.notify_exif.
    intros [Hinfo Htags]. apply in_info in Hinfo. rewrite Hinfo.
    destruct (Py.dict_of _) as [|kv rest] eqn:E.
    + apply (proj1 (dict_of_empty _)) in E.
      apply map_eq_nil in E. congruence.
    + exists (kv :: rest). split; [discriminate | reflexivity].
  - intros b Hb.
    destruct (existsb (Py.str_eqb (Py.py "exif")) (Lib.info img)) eqn:E.
    + apply in_info in E. split; [exact E|]. intros Htags.
      rewrite (proj2 (Hnone (or_intror Htags))) in Hb.
      injection Hb as Hb. symmetry in Hb. exact (append_grows q b Hb).
    + exfalso.
      assert (Hno : ~ In (Py.py "exif") (Lib.info img)).
      { intros Hin. apply in_info in Hin. congruence. }
      rewrite (proj2 (Hnone (or_introl Hno))) in Hb.
      injection Hb as Hb. symmetry in Hb. exact (append_grows q b Hb).
Qed.

(** Runs of X8: the poster has no EXIF data, the landscape picture has one
    tag. *)
Lemma exif_update_only_with_tags_witness :
  (ImagePy.notify_exif Doubles.poster (Py.py "id-1") Doubles.quiet_sink
   = ([], Py.Return tt)
   /\ Message.notify_exif Doubles.poster (Py.py "id-1")
        (Message.new tt (Py.py "metadata") 60)
      = Py.Return (Message.new tt (Py.py "metadata") 60))
  /\ exists exif,
       exif <> []
       /\ fst (ImagePy.notify_exif Doubles.landscape (Py.py "id-1")
                 Doubles.quiet_sink)
          = [ImagePy.ExifUpdate (Py.py "id-1") exif].
Proof.
  split.
  - apply (proj1 (exif_update_only_with_tags unit
                    (Message.new tt (Py.py "metadata") 60) Doubles.quiet_sink
                    Doubles.poster (Py.py "id-1"))).
    left. intros [].
  - apply (proj1 (proj2 (exif_update_only_with_tags unit
                           (Message.new tt (Py.py "metadata") 60)
                           Doubles.quiet_sink Doubles.landscape
                           (Py.py "id-1")))).
    split; [left; reflexivity | discriminate].
Defined.

Lemma each_raises_when {A B} (f : A -> Py.result B) (l : list A) (x : A)
    (e : Py.exn) :
  In x l -> f x = Py.Raise e -> exists e', Py.each f l = Py.Raise e'.
Proof.
  induction l as [|y l IH]; cbn; intros Hin Hx; [destruct Hin|].
  destruct (f y) as [b|e1] eqn:Ey; [|eauto].
  destruct Hin as [->|Hin]; [congruence|].
  destruct (IH Hin Hx) as [e' ->]. eauto.
Qed.

(** A dict with a value [json.dumps] cannot write cannot be written. *)
Lemma json_dumps_dict_raises (items : Py.dict) (k : Py.str) (v : Py.pyval)
    (e : Py.exn) :
  In (k, v) items -> Py.json_dumps v = Py.Raise e ->
  exists e', Py.json_dumps (Py.PyDict items) = Py.Raise e'.
Proof.
  intros Hin Hv. cbn.
  match goal with
  | |- exists _, match Py.each ?f items with _ => _ end = _ =>
      destruct (each_raises_when f items (k, v) e Hin) as [e' ->];
        [cbn; rewrite Hv; reflexivity | eauto]
  end.
Qed.

(** X9.  One EXIF value that [json.dumps] cannot write (raw bytes, a
    rational) costs the whole EXIF update: [notify_exif] of
    [worker/message.py] returns normally and the queue is left as it was,
    the other tags of the picture included. *)
Theorem unwritable_tag_drops_exif_update
    (P : Type) (q : Message.AsyncProducer P) (img : Lib.Image)
    (identifier : Py.str) (tag : Z) (v : Py.pyval) (e : Py.exn) :
  In (Py.py "exif") (Lib.info img) ->
  NoDup (map fst (Lib.getexif img)) ->
  In (tag, v) (Lib.getexif img) ->
  Py.json_dumps v = Py.Raise e ->
  Message.notify_exif img identifier q = Py.Return q.
Proof.
  intros Hinfo Hnodup Htag Hv. apply in_info in Hinfo.
  unfold Message.notify_exif.
  rewrite Hinfo, (exif_dict_of_distinct_tags _ Hnodup).
  assert (Hin : In (Py.hex tag, v)
                  (map (fun kv => (Py.hex (fst kv), snd kv))
                     (Lib.getexif img))).
  { apply (in_map (fun kv => (Py.hex (fst kv), snd kv)) _ _ Htag). }
  remember (map (fun kv => (Py.hex (fst kv), snd kv)) (Lib.getexif img))
    as exif eqn:Hexif in *.
  destruct exif as [|kv rest]; [destruct Hin|].
  destruct (json_dumps_dict_raises (kv :: rest) (Py.hex tag) v e Hin Hv)
    as [e1 He1].
  match goal with
  | |- Message.enqueue_message q ?d = _ =>
      destruct (json_dumps_dict_raises d (Py.py "exif")
                  (Py.PyDict (kv :: rest)) e1) as [e2 He2];
        [right; left; reflexivity | exact He1 |];
        apply (enqueue_message_drops q d e2 He2)
  end.
Qed.

(** A run of X9: the Artist tag and a raw-bytes ExifVersion tag. *)
Lemma unwritable_tag_drops_exif_update_witness :
  Message.notify_exif
    {| Lib.size := (640, 480); Lib.mode := Py.py "RGB";
       Lib.info := [Py.py "exif"];
       Lib.getexif := [(315, Py.PyStr (Py.py "unknown"));
                       (36864, Py.PyBytes "0231"%string)] |}
    (Py.py "id-1") (Message.new tt (Py.py "metadata") 60)
  = Py.Return (Message.new tt (Py.py "metadata") 60).
Proof.
  apply (unwritable_tag_drops_exif_update unit
           (Message.new tt (Py.py "metadata") 60)
           {| Lib.size := (640, 480); Lib.mode := Py.py "RGB";
              Lib.info := [Py.py "exif"];
              Lib.getexif := [(315, Py.PyStr (Py.py "unknown"));
                              (36864, Py.PyBytes "0231"%string)] |}
           (Py.py "id-1") 36864 (Py.PyBytes "0231"%string) Py.TypeError).
  - left. reflexivity.
  - cbn. repeat constructor; cbn; intuition discriminate.
  - right. left. reflexivity.
  - reflexivity.
Defined.

(* ================================================================== *)
(** ** More on the image pipeline *)
(* ================================================================== *)

Section PipelineMore.
Import Py Lib ImagePy.

Variable TARGET_RESOLUTION : Z * Z.
Variable Image_open : bytes -> result Image.
Variable thumbnail_size : Z * Z -> Z * Z -> Z * Z.
Variable pillow_raises : pillow_call -> option exn.
Variable wand_compression_quality : bytes -> result Z.

Local Abbreviation pipeline :=
  (process_image TARGET_RESOLUTION Image_open thumbnail_size pillow_raises
     wand_compression_quality).

Local Abbreviation thumbnail_of :=
  (thumbnail_image TARGET_RESOLUTION thumbnail_size pillow_raises).

(** *** The semaphore *)

Lemma bind_no_permit {A B} (m : M A) (k : A -> M B) :
  filter is_permit (fst m) = [] ->
  (forall a, filter is_permit (fst (k a)) = []) ->
  filter is_permit (fst (bind m k)) = [].
Proof.
  intros Hm Hk. destruct m as [t [a|e]]; cbn in *; [|exact Hm].
  specialize (Hk a). destruct (k a) as [t' r]. cbn in *.
  rewrite filter_app, Hm, Hk. reflexivity.
Qed.

Lemma try_no_permit {A} (body : M A) (handler : exn -> option (M A)) :
  filter is_permit (fst body) = [] ->
  (forall e h, handler e = Some h -> filter is_permit (fst h) = []) ->
  filter is_permit (fst (try_except body handler)) = [].
Proof.
  intros Hbody Hh. destruct body as [t [a|e]]; cbn in *; [exact Hbody|].
  destruct (handler e) as [h|] eqn:E; [|exact Hbody].
  specialize (Hh e h E). destruct h as [t' r]. cbn in *.
  rewrite filter_app, Hbody, Hh. reflexivity.
Qed.

Lemma notify_quality_no_permit (img : Image) (buffer : bytes)
    (identifier : str) (mp : MetadataProducer) :
  filter is_permit
    (fst (notify_quality wand_compression_quality img buffer identifier mp))
  = [].
Proof.
  unfold notify_quality. destruct (size img) as [h w].
  apply bind_no_permit; [|reflexivity].
  apply try_no_permit.
  - apply bind_no_permit; reflexivity.
  - intros [] h' E; try discriminate E. injection E as <-. reflexivity.
Qed.

Lemma notify_exif_no_permit (img : Image) (identifier : str)
    (mp : MetadataProducer) :
  filter is_permit (fst (notify_exif img identifier mp)) = [].
Proof.
  unfold notify_exif.
  destruct (existsb _ _); [|reflexivity].
  destruct (dict_of _); reflexivity.
Qed.

(** X10.  Whatever the collaborators do, return or raise, a task takes the
    permit of the semaphore once, before anything else, and gives it back
    once, after everything else: no path through [process_image] keeps the
    permit or returns it twice. *)
Theorem permit_taken_and_given_back_once
    (persister : EncodedImage -> str -> result unit)
    (session : str -> str -> result (option Response))
    (url identifier : str) (stats : StatsManager) (source : str)
    (metadata_producer : option MetadataProducer) :
  exists inside,
    fst (pipeline persister session url identifier stats source
           metadata_producer)
    = Acquire :: inside ++ [Release]
    /\ filter is_permit inside = [].
Proof.
  unfold process_image.
  match goal with
  | |- exists _, fst (async_with ?body) = _ /\ _ =>
      exists (fst body); split; [destruct body; reflexivity|]
  end.
  apply bind_no_permit.
  - apply try_no_permit.
    + apply bind_no_permit; reflexivity.
    + intros [] h E; try discriminate E. injection E as <-.
      destruct (record_error stats source _); reflexivity.
  - intros [[img_resp|]|]; try reflexivity.
    destruct (status img_resp >=? 400); [reflexivity|].
    apply bind_no_permit; [reflexivity|]. intros buffer.
    apply bind_no_permit.
    + apply try_no_permit.
      * apply bind_no_permit; [reflexivity|]. intros img.
        apply bind_no_permit; [|reflexivity].
        destruct metadata_producer as [mp|]; [|reflexivity].
        apply bind_no_permit; [apply notify_quality_no_permit|].
        intros _. apply notify_exif_no_permit.
      * intros [] h E; try discriminate E. injection E as <-.
        destruct (record_error stats source _); reflexivity.
    + intros [img|]; [|reflexivity].
      apply bind_no_permit; [reflexivity|]. intros thumb.
      apply bind_no_permit; reflexivity.
Qed.

(** *** The fetch *)

(** X11.  An answer with a status of 400 or more ends the task: the numeric
    status is recorded as the error code, once, nothing is read, decoded,
    announced, thumbnailed or persisted, and the task ends the way the call
    on the stats manager ends.  An answer with a status below 400 is read:
    if reading raises, the exception reaches the caller and nothing is
    recorded; otherwise the task goes on to [Image.open] with the bytes
    read. *)
Theorem http_error_status_ends_task
    (persister : EncodedImage -> str -> result unit)
    (session : str -> str -> result (option Response))
    (url identifier : str) (stats : StatsManager) (source : str)
    (metadata_producer : option MetadataProducer) (img_resp : Response) :
  session url source = Return (Some img_resp) ->
  let run := pipeline persister session url identifier stats source
               metadata_producer in
  (400 <= status img_resp ->
   run = ([Acquire; Get url source;
           RecordError source (PyInt (status img_resp)); Release],
          record_error stats source (PyInt (status img_resp))))
  /\ (status img_resp < 400 ->
      (forall e, read img_resp = Raise e ->
                 run = ([Acquire; Get url source; Release], Raise e))
      /\ (forall buffer, read img_resp = Return buffer ->
            exists rest,
              fst run = Acquire :: Get url source :: Open buffer :: rest)).
Proof.
  intros Hget run. subst run. unfold process_image. rewrite Hget. cbn.
  destruct (Z.geb_spec (status img_resp) 400) as [Hge|Hlt].
  - split; [|lia]. intros _.
    destruct (record_error stats source _) as [[]|e]; reflexivity.
  - split; [lia|]. intros _. split.
    + intros e ->. reflexivity.
    + intros buffer ->. cbn.
      destruct (Image_open buffer) as [img|e].
      * match goal with
        | |- context [bind ?m (fun _ => ret (Some img))] =>
            destruct m as [t1 [[]|e1]]
        end; cbn.
        -- destruct (thumbnail_of img) as [thumb|e2]; cbn; eauto.
           destruct (persister _ _) as [[]|e2]; cbn; eauto.
        -- destruct e1; cbn; eauto.
           destruct (record_error stats source _); cbn; eauto.
      * destruct e; cbn; eauto.
        destruct (record_error stats source _); cbn; eauto.
Qed.

(** X12.  The three ways a fetch fails.  Without a rate token (the session
    returns [None]) the task records ["NoRateToken"]; when the server
    disconnects it records ["ServerDisconnected"]; in both cases it does
    nothing else and ends the way the call on the stats manager ends.  Any
    other exception of the session reaches the caller, with nothing
    recorded. *)
Theorem fetch_failures
    (persister : EncodedImage -> str -> result unit)
    (session : str -> str -> result (option Response))
    (url identifier : str) (stats : StatsManager) (source : str)
    (metadata_producer : option MetadataProducer) :
  let run := pipeline persister session url identifier stats source
               metadata_producer in
  (session url source = Return None ->
   run = ([Acquire; Get url source;
           RecordError source (PyStr (py "NoRateToken")); Release],
          record_error stats source (PyStr (py "NoRateToken"))))
  /\ (session url source = Raise ServerDisconnectedError ->
      run = ([Acquire; Get url source;
              RecordError source (PyStr (py "ServerDisconnected")); Release],
             record_error stats source (PyStr (py "ServerDisconnected"))))
  /\ (forall e, session url source = Raise e ->
                e <> ServerDisconnectedError ->
                run = ([Acquire; Get url source; Release], Raise e)).
Proof.
  intros run. subst run. unfold process_image. repeat split.
  - intros ->. cbn.
    destruct (record_error stats source _) as [[]|e]; reflexivity.
  - intros ->. cbn.
    destruct (record_error stats source _) as [[]|e]; reflexivity.
  - intros e -> He. destruct e; try congruence; reflexivity.
Qed.

(** *** The decoded picture *)

(** X13.  A task that succeeds without a sink: the picture is fetched,
    read, decoded, thumbnailed and persisted under the task's identifier,
    success is recorded once, and no metadata event is emitted.  The task
    ends the way the call on the stats manager ends. *)
Theorem task_without_sink_emits_no_metadata
    (persister : EncodedImage -> str -> result unit)
    (session : str -> str -> result (option Response))
    (url identifier : str) (stats : StatsManager) (source : str)
    (img_resp : Response) (buffer : bytes) (img : Image)
    (thumb : EncodedImage) :
  session url source = Return (Some img_resp) ->
  status img_resp < 400 ->
  read img_resp = Return buffer ->
  Image_open buffer = Return img ->
  thumbnail_of img = Return thumb ->
  persister thumb identifier = Return tt ->
  let run := pipeline persister session url identifier stats source None in
  run = ([Acquire; Get url source; Open buffer; Thumbnail img;
          Persist thumb identifier; RecordSuccess source; Release],
         record_success stats source)
  /\ filter is_metadata (fst run) = [].
Proof.
  intros Hget Hstatus Hread Hopen Hthumb Hpersist run.
  assert (Hrun : run = ([Acquire; Get url source; Open buffer; Thumbnail img;
                         Persist thumb identifier; RecordSuccess source;
                         Release], record_success stats source)).
  { subst run. unfold process_image. rewrite Hget. cbn.
    destruct (Z.geb_spec (status img_resp) 400) as [Hge|_]; [lia|].
    rewrite Hread. cbn. rewrite Hopen. cbn. rewrite Hthumb. cbn.
    rewrite Hpersist. cbn.
    destruct (record_success stats source) as [[]|e]; reflexivity. }
  rewrite Hrun. split; reflexivity.
Qed.

(** X14.  A task that succeeds with a sink and a probe that answers: the
    quality update goes out first, with the byte count of the fetched
    payload and the quality the probe returned, then the EXIF update if
    there is one, and only then is the picture thumbnailed and persisted
    and success recorded.  The metadata is taken from the picture as
    fetched, before it is resized. *)
Theorem task_with_sink_announces_then_thumbnails
    (persister : EncodedImage -> str -> result unit)
    (session : str -> str -> result (option Response))
    (url identifier : str) (stats : StatsManager) (source : str)
    (mp : MetadataProducer) (img_resp : Response) (buffer : bytes)
    (img : Image) (cq : Z) (thumb : EncodedImage) :
  session url source = Return (Some img_resp) ->
  status img_resp < 400 ->
  read img_resp = Return buffer ->
  Image_open buffer = Return img ->
  wand_compression_quality buffer = Return cq ->
  (forall h w i f c, notify_image_quality_update mp h w i f c = Return tt) ->
  (forall i e, notify_exif_update mp i e = Return tt) ->
  thumbnail_of img = Return thumb ->
  persister thumb identifier = Return tt ->
  exists h w,
    pipeline persister session url identifier stats source (Some mp)
    = ([Acquire; Get url source; Open buffer; Probe buffer;
        QualityUpdate h w identifier (nbytes buffer) (Some cq)]
         ++ fst (notify_exif img identifier mp)
         ++ [Thumbnail img; Persist thumb identifier;
             RecordSuccess source; Release],
       record_success stats source).
Proof.
  intros Hget Hstatus Hread Hopen Hprobe Hq Hexif Hthumb Hpersist.
  destruct (size img) as [height width] eqn:Hsize.
  exists height, width.
  unfold process_image. rewrite Hget. cbn.
  destruct (Z.geb_spec (status img_resp) 400) as [Hge|_]; [lia|].
  rewrite Hread. cbn. rewrite Hopen. cbn.
  unfold notify_quality. rewrite Hsize. cbn.
  rewrite Hprobe. cbn. rewrite Hq. cbn.
  pose proof (notify_exif_returns img identifier mp Hexif) as Hsnd.
  destruct (notify_exif img identifier mp) as [t r]. cbn in Hsnd. subst r.
  cbn. rewrite Hthumb. cbn. rewrite Hpersist. cbn.
  destruct (record_success stats source) as [[]|e];
    rewrite <- !app_assoc; reflexivity.
Qed.

(** X15.  An exception raised by the sink while the quality update is
    handed over falls inside the [try] block of the decode.  If it is an
    [UnidentifiedImageError], the decoded picture is recorded as a corrupt
    one and the task ends the way the call on the stats manager ends; any
    other exception reaches the caller with nothing recorded.  Either way
    nothing is thumbnailed or persisted. *)
Theorem sink_error_ends_task
    (persister : EncodedImage -> str -> result unit)
    (session : str -> str -> result (option Response))
    (url identifier : str) (stats : StatsManager) (source : str)
    (mp : MetadataProducer) (img_resp : Response) (buffer : bytes)
    (img : Image) (cq : Z) (e : exn) :
  session url source = Return (Some img_resp) ->
  status img_resp < 400 ->
  read img_resp = Return buffer ->
  Image_open buffer = Return img ->
  wand_compression_quality buffer = Return cq ->
  (forall h w i f c, notify_image_quality_update mp h w i f c = Raise e) ->
  let run := pipeline persister session url identifier stats source
               (Some mp) in
  filter is_work (fst run) = []
  /\ (e = UnidentifiedImageError ->
      snd run
      = record_error stats source (PyStr (py "UnidentifiedImageError"))
      /\ filter is_stat (fst run)
         = [RecordError source (PyStr (py "UnidentifiedImageError"))])
  /\ (e <> UnidentifiedImageError ->
      snd run = Raise e /\ filter is_stat (fst run) = []).
Proof.
  intros Hget Hstatus Hread Hopen Hprobe Hq run. subst run.
  unfold process_image. rewrite Hget. cbn.
  destruct (Z.geb_spec (status img_resp) 400) as [Hge|_]; [lia|].
  rewrite Hread. cbn. rewrite Hopen. cbn. unfold notify_quality.
  destruct (size img) as [height width]. cbn.
  rewrite Hprobe. cbn. rewrite Hq. cbn.
  destruct e; cbn;
    try (repeat split; try congruence; reflexivity).
  destruct (record_error stats source _) as [[]|e]; cbn;
    repeat split; congruence.
Qed.

(** X16.  A probe that raises anything but a Wand exception is not
    absorbed: the exception reaches the caller of [process_image], no
    quality update is emitted, nothing is recorded, thumbnailed or
    persisted. *)
Theorem probe_error_other_than_wand_reaches_caller
    (persister : EncodedImage -> str -> result unit)
    (session : str -> str -> result (option Response))
    (url identifier : str) (stats : StatsManager) (source : str)
    (mp : MetadataProducer) (img_resp : Response) (buffer : bytes)
    (img : Image) (e : exn) :
  session url source = Return (Some img_resp) ->
  status img_resp < 400 ->
  read img_resp = Return buffer ->
  Image_open buffer = Return img ->
  wand_compression_quality buffer = Raise e ->
  (forall detail, e <> WandException detail) ->
  e <> UnidentifiedImageError ->
  pipeline persister session url identifier stats source (Some mp)
  = ([Acquire; Get url source; Open buffer; Probe buffer; Release],
     Raise e).
Proof.
  intros Hget Hstatus Hread Hopen Hprobe Hwand Hunid.
  unfold process_image. rewrite Hget. cbn.
  destruct (Z.geb_spec (status img_resp) 400) as [Hge|_]; [lia|].
  rewrite Hread. cbn. rewrite Hopen. cbn. unfold notify_quality.
  destruct (size img) as [height width]. cbn.
  rewrite Hprobe.
  destruct e;
    first [ reflexivity
          | congruence
          | exfalso; eapply Hwand; reflexivity ].
Qed.

(** *** The thumbnail and the persisters *)

(** The task from the decoded picture on, without a sink. *)
Lemma process_image_decoded
    (persister : EncodedImage -> str -> result unit)
    (session : str -> str -> result (option Response))
    (url identifier : str) (stats : StatsManager) (source : str)
    (img_resp : Response) (buffer : bytes) (img : Image) :
  session url source = Return (Some img_resp) ->
  status img_resp < 400 ->
  read img_resp = Return buffer ->
  Image_open buffer = Return img ->
  pipeline persister session url identifier stats source None
  = match thumbnail_of img with
    | Raise e =>
        ([Acquire; Get url source; Open buffer; Thumbnail img; Release],
         Raise e)
    | Return thumb =>
        match persister thumb identifier with
        | Raise e =>
            ([Acquire; Get url source; Open buffer; Thumbnail img;
              Persist thumb identifier; Release], Raise e)
        | Return _ =>
            ([Acquire; Get url source; Open buffer; Thumbnail img;
              Persist thumb identifier; RecordSuccess source; Release],
             record_success stats source)
        end
    end.
Proof.
  intros Hget Hstatus Hread Hopen.
  unfold process_image. rewrite Hget. cbn.
  destruct (Z.geb_spec (status img_resp) 400) as [Hge|_]; [lia|].
  rewrite Hread. cbn. rewrite Hopen. cbn.
  destruct (thumbnail_of img) as [thumb|e]; cbn; [|reflexivity].
  destruct (persister thumb identifier) as [[]|e]; cbn; [|reflexivity].
  destruct (record_success stats source) as [[]|e]; reflexivity.
Qed.

(** X17.  With [save_thumbnail_s3] as the persister, the thumbnail of a
    decoded picture is put in the bucket [cc-image-analysis] under the key
    made of the task's identifier followed by [.jpg]: success is recorded
    when [put_object] returns, and when it raises the exception reaches
    the caller with no outcome recorded.  When no thumbnail can be made,
    the exception met reaches the caller, [put_object] is not called and no
    outcome is recorded.  Two identifiers never share a key. *)
Theorem s3_persister_stores_under_identifier
    (s3_client : S3Client)
    (session : str -> str -> result (option Response))
    (url identifier : str) (stats : StatsManager) (source : str)
    (img_resp : Response) (buffer : bytes) (img : Image) :
  session url source = Return (Some img_resp) ->
  status img_resp < 400 ->
  read img_resp = Return buffer ->
  Image_open buffer = Return img ->
  let run := pipeline (save_thumbnail_s3 s3_client) session url identifier
               stats source None in
  (forall thumb,
     thumbnail_of img = Return thumb ->
     let stored := put_object s3_client (py "cc-image-analysis")
                     (identifier ++ py ".jpg") thumb in
     (stored = Return tt ->
      run = ([Acquire; Get url source; Open buffer; Thumbnail img;
              Persist thumb identifier; RecordSuccess source; Release],
             record_success stats source))
     /\ (forall e, stored = Raise e ->
           run = ([Acquire; Get url source; Open buffer; Thumbnail img;
                   Persist thumb identifier; Release], Raise e)))
  /\ (forall e,
        thumbnail_of img = Raise e ->
        run = ([Acquire; Get url source; Open buffer; Thumbnail img;
                Release], Raise e))
  /\ (forall other : str,
        other ++ py ".jpg" = identifier ++ py ".jpg" -> other = identifier).
Proof.
  intros Hget Hstatus Hread Hopen run. subst run.
  rewrite (process_image_decoded _ _ _ _ _ _ _ _ _ Hget Hstatus Hread Hopen).
  split; [|split].
  - intros thumb -> stored. subst stored. unfold save_thumbnail_s3. split.
    + intros ->. reflexivity.
    + intros e ->. reflexivity.
  - intros e ->. reflexivity.
  - intros other H. apply app_inv_tail in H. exact H.
Qed.

(** X18.  The pipeline test.  With [validate_thumbnail] as the persister,
    an envelope of at most 640 by 480 and a resizer that keeps within the
    size it is asked for, the thumbnail of a fetched and decoded picture
    always passes: the assertion holds, the thumbnail is accepted and
    success is recorded once.  And the test can fail: a thumbnail wider
    than 640 or higher than 480 makes [process_image] raise the assertion
    error, with no success recorded; and when no thumbnail can be made,
    [process_image] raises the exception met, the assertion not being
    reached. *)
Theorem validate_thumbnail_accepts_thumbnails
    (session : str -> str -> result (option Response))
    (url identifier : str) (stats : StatsManager) (source : str)
    (img_resp : Response) (buffer : bytes) (img : Image) :
  session url source = Return (Some img_resp) ->
  status img_resp < 400 ->
  read img_resp = Return buffer ->
  Image_open buffer = Return img ->
  let run := pipeline TestWorker.validate_thumbnail session url identifier
               stats source None in
  (forall thumb,
     thumbnail_of img = Return thumb ->
     (fst TARGET_RESOLUTION <= 640 -> snd TARGET_RESOLUTION <= 480 ->
      (forall cur,
         fst (thumbnail_size TARGET_RESOLUTION cur) <= fst TARGET_RESOLUTION
         /\ snd (thumbnail_size TARGET_RESOLUTION cur)
            <= snd TARGET_RESOLUTION) ->
      run = ([Acquire; Get url source; Open buffer; Thumbnail img;
              Persist thumb identifier; RecordSuccess source; Release],
             record_success stats source))
     /\ (640 < fst (pixel_size thumb) \/ 480 < snd (pixel_size thumb) ->
         snd run = Raise (OtherException "AssertionError")
         /\ filter is_stat (fst run) = []))
  /\ (forall e,
        thumbnail_of img = Raise e ->
        run = ([Acquire; Get url source; Open buffer; Thumbnail img;
                Release], Raise e)).
Proof.
  intros Hget Hstatus Hread Hopen run. subst run.
  rewrite (process_image_decoded _ _ _ _ _ _ _ _ _ Hget Hstatus Hread Hopen).
  split.
  - intros thumb Hthumb. rewrite Hthumb.
    pose proof (thumbnail_image_returns _ _ _ _ _ Hthumb) as Hout.
    unfold TestWorker.validate_thumbnail.
    destruct (pixel_size thumb) as [width height] eqn:Hsize.
    assert (Hgave : thumbnail_size TARGET_RESOLUTION (size img)
                    = (width, height)).
    { rewrite Hout in Hsize. cbn in Hsize. exact Hsize. }
    cbn [fst snd]. split.
    + intros HX HY Hwithin.
      destruct (Hwithin (size img)) as [Hw Hh].
      rewrite Hgave in Hw, Hh. cbn [fst snd] in Hw, Hh.
      destruct (Z.leb_spec width 640); [|lia].
      destruct (Z.leb_spec height 480); [|lia]. reflexivity.
    + intros Hbig.
      destruct (Z.leb_spec width 640); destruct (Z.leb_spec height 480);
        try lia; split; reflexivity.
  - intros e ->. reflexivity.
Qed.

End PipelineMore.

(** A run of X11: the session answers 403. *)
Lemma http_error_status_ends_task_witness :
  ImagePy.process_image (640, 480) (fun _ => Py.Return Doubles.landscape)
    Doubles.shrink_to_fit Doubles.sound (fun _ => Py.Return 75)
    (fun _ _ => Py.Return tt)
    (Doubles.fake_session 403 "Forbidden"%string)
    (Py.py "https://example.gov/image.jpg") (Py.py "id-1")
    Doubles.quiet_stats (Py.py "example") (Some Doubles.quiet_sink)
  = ([ImagePy.Acquire;
      ImagePy.Get (Py.py "https://example.gov/image.jpg") (Py.py "example");
      ImagePy.RecordError (Py.py "example") (Py.PyInt 403);
      ImagePy.Release], Py.Return tt).
Proof.
  apply (proj1 (http_error_status_ends_task (640, 480)
                  (fun _ => Py.Return Doubles.landscape)
                  Doubles.shrink_to_fit Doubles.sound
                  (fun _ => Py.Return 75)
                  (fun _ _ => Py.Return tt)
                  (Doubles.fake_session 403 "Forbidden"%string)
                  (Py.py "https://example.gov/image.jpg") (Py.py "id-1")
                  Doubles.quiet_stats (Py.py "example")
                  (Some Doubles.quiet_sink)
                  {| ImagePy.status := 403;
                     ImagePy.read := Py.Return "Forbidden"%string |}
                  eq_refl)).
  simpl. lia.
Defined.

(** A run of X12: the rate limiter grants no token. *)
Lemma fetch_failures_witness :
  ImagePy.process_image (640, 480) (fun _ => Py.Return Doubles.landscape)
    Doubles.shrink_to_fit Doubles.sound (fun _ => Py.Return 75)
    (fun _ _ => Py.Return tt)
    (fun _ _ => Py.Return None)
    (Py.py "https://example.gov/image.jpg") (Py.py "id-1")
    Doubles.quiet_stats (Py.py "example") None
  = ([ImagePy.Acquire;
      ImagePy.Get (Py.py "https://example.gov/image.jpg") (Py.py "example");
      ImagePy.RecordError (Py.py "example") (Py.PyStr (Py.py "NoRateToken"));
      ImagePy.Release], Py.Return tt).
Proof.
  apply (proj1 (fetch_failures (640, 480)
                  (fun _ => Py.Return Doubles.landscape)
                  Doubles.shrink_to_fit Doubles.sound
                  (fun _ => Py.Return 75)
                  (fun _ _ => Py.Return tt) (fun _ _ => Py.Return None)
                  (Py.py "https://example.gov/image.jpg") (Py.py "id-1")
                  Doubles.quiet_stats (Py.py "example") None)).
  reflexivity.
Defined.

(** A run of X13: the landscape picture, no sink. *)
Lemma task_without_sink_emits_no_metadata_witness :
  ImagePy.process_image (640, 480) (fun _ => Py.Return Doubles.landscape)
    Doubles.shrink_to_fit Doubles.sound (fun _ => Py.Return 75)
    (fun _ _ => Py.Return tt)
    (Doubles.fake_session 200 "JFIF"%string)
    (Py.py "https://example.gov/hello.jpg") (Py.py "id-1")
    Doubles.quiet_stats (Py.py "example") None
  = ([ImagePy.Acquire;
      ImagePy.Get (Py.py "https://example.gov/hello.jpg") (Py.py "example");
      ImagePy.Open "JFIF"%string; ImagePy.Thumbnail Doubles.landscape;
      ImagePy.Persist
        {| Lib.format := Py.py "JPEG"; Lib.quality := 30;
           Lib.pixel_size := (640, 480); Lib.pixel_mode := Py.py "RGB" |}
        (Py.py "id-1");
      ImagePy.RecordSuccess (Py.py "example"); ImagePy.Release],
     Py.Return tt).
Proof.
  apply (proj1 (task_without_sink_emits_no_metadata (640, 480)
                  (fun _ => Py.Return Doubles.landscape)
                  Doubles.shrink_to_fit Doubles.sound
                  (fun _ => Py.Return 75)
                  (fun _ _ => Py.Return tt)
                  (Doubles.fake_session 200 "JFIF"%string)
                  (Py.py "https://example.gov/hello.jpg") (Py.py "id-1")
                  Doubles.quiet_stats (Py.py "example")
                  {| ImagePy.status := 200;
                     ImagePy.read := Py.Return "JFIF"%string |}
                  "JFIF"%string Doubles.landscape
                  {| Lib.format := Py.py "JPEG"; Lib.quality := 30;
                     Lib.pixel_size := (640, 480);
                     Lib.pixel_mode := Py.py "RGB" |}
                  eq_refl ltac:(simpl; lia) eq_refl eq_refl eq_refl
                  eq_refl)).
Defined.

(** A run of X14: the landscape picture, a sink, a probe that answers 75. *)
Lemma task_with_sink_announces_then_thumbnails_witness :
  exists h w,
    ImagePy.process_image (640, 480) (fun _ => Py.Return Doubles.landscape)
      Doubles.shrink_to_fit Doubles.sound (fun _ => Py.Return 75)
      (fun _ _ => Py.Return tt)
      (Doubles.fake_session 200 "JFIF"%string)
      (Py.py "https://example.gov/hello.jpg") (Py.py "id-1")
      Doubles.quiet_stats (Py.py "example") (Some Doubles.quiet_sink)
    = ([ImagePy.Acquire;
        ImagePy.Get (Py.py "https://example.gov/hello.jpg") (Py.py "example");
        ImagePy.Open "JFIF"%string; ImagePy.Probe "JFIF"%string;
        ImagePy.QualityUpdate h w (Py.py "id-1") 4 (Some 75)]
         ++ [ImagePy.ExifUpdate (Py.py "id-1")
               [(Py.py "0x13b", Py.PyStr (Py.py "unknown"))]]
         ++ [ImagePy.Thumbnail Doubles.landscape;
             ImagePy.Persist
               {| Lib.format := Py.py "JPEG"; Lib.quality := 30;
                  Lib.pixel_size := (640, 480);
                  Lib.pixel_mode := Py.py "RGB" |}
               (Py.py "id-1");
             ImagePy.RecordSuccess (Py.py "example"); ImagePy.Release],
       Py.Return tt).
Proof.
  apply (task_with_sink_announces_then_thumbnails (640, 480)
           (fun _ => Py.Return Doubles.landscape)
           Doubles.shrink_to_fit Doubles.sound (fun _ => Py.Return 75)
           (fun _ _ => Py.Return tt)
           (Doubles.fake_session 200 "JFIF"%string)
           (Py.py "https://example.gov/hello.jpg") (Py.py "id-1")
           Doubles.quiet_stats (Py.py "example") Doubles.quiet_sink
           {| ImagePy.status := 200;
              ImagePy.read := Py.Return "JFIF"%string |}
           "JFIF"%string Doubles.landscape 75
           {| Lib.format := Py.py "JPEG"; Lib.quality := 30;
              Lib.pixel_size := (640, 480); Lib.pixel_mode := Py.py "RGB" |}
           eq_refl ltac:(simpl; lia) eq_refl eq_refl eq_refl
           (fun _ _ _ _ _ => eq_refl) (fun _ _ => eq_refl) eq_refl eq_refl).
Defined.

(** A run of X15: the object given as sink has no method
    [notify_image_quality_update], so the call raises [AttributeError]. *)
Lemma sink_error_ends_task_witness :
  let run := ImagePy.process_image (640, 480)
               (fun _ => Py.Return Doubles.landscape)
               Doubles.shrink_to_fit Doubles.sound (fun _ => Py.Return 75)
               (fun _ _ => Py.Return tt)
               (Doubles.fake_session 200 "JFIF"%string)
               (Py.py "https://example.gov/hello.jpg") (Py.py "id-1")
               Doubles.quiet_stats (Py.py "example")
               (Some {| ImagePy.notify_image_quality_update :=
                          fun _ _ _ _ _ =>
                            Py.Raise (Py.OtherException "AttributeError");
                        ImagePy.notify_exif_update :=
                          fun _ _ =>
                            Py.Raise (Py.OtherException "AttributeError") |})
  in
  snd run = Py.Raise (Py.OtherException "AttributeError")
  /\ filter ImagePy.is_stat (fst run) = [].
Proof.
  apply (proj2 (proj2 (sink_error_ends_task (640, 480)
                  (fun _ => Py.Return Doubles.landscape)
                  Doubles.shrink_to_fit Doubles.sound
                  (fun _ => Py.Return 75)
                  (fun _ _ => Py.Return tt)
                  (Doubles.fake_session 200 "JFIF"%string)
                  (Py.py "https://example.gov/hello.jpg") (Py.py "id-1")
                  Doubles.quiet_stats (Py.py "example")
                  {| ImagePy.notify_image_quality_update :=
                       fun _ _ _ _ _ =>
                         Py.Raise (Py.OtherException "AttributeError");
                     ImagePy.notify_exif_update :=
                       fun _ _ =>
                         Py.Raise (Py.OtherException "AttributeError") |}
                  {| ImagePy.status := 200;
                     ImagePy.read := Py.Return "JFIF"%string |}
                  "JFIF"%string Doubles.landscape 75
                  (Py.OtherException "AttributeError")
                  eq_refl ltac:(simpl; lia) eq_refl eq_refl eq_refl
                  (fun _ _ _ _ _ => eq_refl)))).
  discriminate.
Defined.

(** A run of X16: the probe runs out of memory. *)
Lemma probe_error_other_than_wand_reaches_caller_witness :
  ImagePy.process_image (640, 480) (fun _ => Py.Return Doubles.landscape)
    Doubles.shrink_to_fit Doubles.sound
    (fun _ => Py.Raise (Py.OtherException "MemoryError"))
    (fun _ _ => Py.Return tt)
    (Doubles.fake_session 200 "JFIF"%string)
    (Py.py "https://example.gov/hello.jpg") (Py.py "id-1")
    Doubles.quiet_stats (Py.py "example") (Some Doubles.quiet_sink)
  = ([ImagePy.Acquire;
      ImagePy.Get (Py.py "https://example.gov/hello.jpg") (Py.py "example");
      ImagePy.Open "JFIF"%string; ImagePy.Probe "JFIF"%string;
      ImagePy.Release],
     Py.Raise (Py.OtherException "MemoryError")).
Proof.
  apply (probe_error_other_than_wand_reaches_caller (640, 480)
           (fun _ => Py.Return Doubles.landscape)
           Doubles.shrink_to_fit Doubles.sound
           (fun _ => Py.Raise (Py.OtherException "MemoryError"))
           (fun _ _ => Py.Return tt)
           (Doubles.fake_session 200 "JFIF"%string)
           (Py.py "https://example.gov/hello.jpg") (Py.py "id-1")
           Doubles.quiet_stats (Py.py "example") Doubles.quiet_sink
           {| ImagePy.status := 200;
              ImagePy.read := Py.Return "JFIF"%string |}
           "JFIF"%string Doubles.landscape (Py.OtherException "MemoryError")
           eq_refl ltac:(simpl; lia) eq_refl eq_refl eq_refl);
    [intros detail; discriminate | discriminate].
Defined.

(** Runs of X17: a bucket that takes every object, and a picture cut
    short, for which nothing is stored. *)
Lemma s3_persister_stores_under_identifier_witness :
  ImagePy.process_image (640, 480) (fun _ => Py.Return Doubles.landscape)
    Doubles.shrink_to_fit Doubles.sound (fun _ => Py.Return 75)
    (ImagePy.save_thumbnail_s3
       {| ImagePy.put_object := fun _ _ _ => Py.Return tt |})
    (Doubles.fake_session 200 "JFIF"%string)
    (Py.py "https://example.gov/hello.jpg") (Py.py "id-1")
    Doubles.quiet_stats (Py.py "example") None
  = ([ImagePy.Acquire;
      ImagePy.Get (Py.py "https://example.gov/hello.jpg") (Py.py "example");
      ImagePy.Open "JFIF"%string; ImagePy.Thumbnail Doubles.landscape;
      ImagePy.Persist
        {| Lib.format := Py.py "JPEG"; Lib.quality := 30;
           Lib.pixel_size := (640, 480); Lib.pixel_mode := Py.py "RGB" |}
        (Py.py "id-1");
      ImagePy.RecordSuccess (Py.py "example"); ImagePy.Release],
     Py.Return tt)
  /\ ImagePy.process_image (640, 480) (fun _ => Py.Return Doubles.landscape)
       Doubles.shrink_to_fit Doubles.truncated (fun _ => Py.Return 75)
       (ImagePy.save_thumbnail_s3
          {| ImagePy.put_object := fun _ _ _ => Py.Return tt |})
       (Doubles.fake_session 200 "JFIF"%string)
       (Py.py "https://example.gov/hello.jpg") (Py.py "id-1")
       Doubles.quiet_stats (Py.py "example") None
     = ([ImagePy.Acquire;
         ImagePy.Get (Py.py "https://example.gov/hello.jpg")
           (Py.py "example");
         ImagePy.Open "JFIF"%string; ImagePy.Thumbnail Doubles.landscape;
         ImagePy.Release],
        Py.Raise (Py.OtherException "OSError")).
Proof.
  split.
  - apply (proj1 (proj1 (s3_persister_stores_under_identifier (640, 480)
                    (fun _ => Py.Return Doubles.landscape)
                    Doubles.shrink_to_fit Doubles.sound
                    (fun _ => Py.Return 75)
                    {| ImagePy.put_object := fun _ _ _ => Py.Return tt |}
                    (Doubles.fake_session 200 "JFIF"%string)
                    (Py.py "https://example.gov/hello.jpg") (Py.py "id-1")
                    Doubles.quiet_stats (Py.py "example")
                    {| ImagePy.status := 200;
                       ImagePy.read := Py.Return "JFIF"%string |}
                    "JFIF"%string Doubles.landscape
                    eq_refl ltac:(simpl; lia) eq_refl eq_refl)
                  {| Lib.format := Py.py "JPEG"; Lib.quality := 30;
                     Lib.pixel_size := (640, 480);
                     Lib.pixel_mode := Py.py "RGB" |}
                  eq_refl)).
    reflexivity.
  - apply (proj1 (proj2 (s3_persister_stores_under_identifier (640, 480)
                    (fun _ => Py.Return Doubles.landscape)
                    Doubles.shrink_to_fit Doubles.truncated
                    (fun _ => Py.Return 75)
                    {| ImagePy.put_object := fun _ _ _ => Py.Return tt |}
                    (Doubles.fake_session 200 "JFIF"%string)
                    (Py.py "https://example.gov/hello.jpg") (Py.py "id-1")
                    Doubles.quiet_stats (Py.py "example")
                    {| ImagePy.status := 200;
                       ImagePy.read := Py.Return "JFIF"%string |}
                    "JFIF"%string Doubles.landscape
                    eq_refl ltac:(simpl; lia) eq_refl eq_refl))).
    reflexivity.
Defined.

(** A run of X18: the poster, shrunk to fit 640 by 480. *)
Lemma validate_thumbnail_accepts_thumbnails_witness :
  ImagePy.process_image (640, 480) (fun _ => Py.Return Doubles.poster)
    Doubles.shrink_to_fit Doubles.sound (fun _ => Py.Return 75)
    TestWorker.validate_thumbnail
    (Doubles.fake_session 200 "PNG"%string)
    (Py.py "https://example.gov/hello.jpg") (Py.py "id-1")
    Doubles.quiet_stats (Py.py "example") None
  = ([ImagePy.Acquire;
      ImagePy.Get (Py.py "https://example.gov/hello.jpg") (Py.py "example");
      ImagePy.Open "PNG"%string; ImagePy.Thumbnail Doubles.poster;
      ImagePy.Persist
        {| Lib.format := Py.py "JPEG"; Lib.quality := 30;
           Lib.pixel_size := (640, 160); Lib.pixel_mode := Py.py "RGB" |}
        (Py.py "id-1");
      ImagePy.RecordSuccess (Py.py "example"); ImagePy.Release],
     Py.Return tt).
Proof.
  apply (proj1 (proj1 (validate_thumbnail_accepts_thumbnails (640, 480)
                  (fun _ => Py.Return Doubles.poster)
                  Doubles.shrink_to_fit Doubles.sound
                  (fun _ => Py.Return 75)
                  (Doubles.fake_session 200 "PNG"%string)
                  (Py.py "https://example.gov/hello.jpg") (Py.py "id-1")
                  Doubles.quiet_stats (Py.py "example")
                  {| ImagePy.status := 200;
                     ImagePy.read := Py.Return "PNG"%string |}
                  "PNG"%string Doubles.poster
                  eq_refl ltac:(simpl; lia) eq_refl eq_refl)
                {| Lib.format := Py.py "JPEG"; Lib.quality := 30;
                   Lib.pixel_size := (640, 160);
                   Lib.pixel_mode := Py.py "RGB" |}
                eq_refl)).
  - simpl. lia.
  - simpl. lia.
  - intros cur. apply shrink_to_fit_within; simpl; lia.
Defined.
